(** * Speech-emotion pipeline: augmentation, fixed-shape MFCC sequences,
      dataset building, class weights and prediction.

    Shallow embedding of the two notebooks of the repository
    (the classical/first deep-learning notebook and [last-4.ipynb]).
    Python's interpreter state (the audio files on disk, numpy's global
    random state, standard output) is threaded explicitly through a
    state-and-exception monad; the signal-processing primitives of librosa,
    the shuffling of scikit-learn and the inference of Keras are consumed
    interfaces and appear as type-class parameters. Floating-point samples
    and weights are modelled by exact rationals. *)

From stdpp Require Import base list strings gmap sorting.
From Stdlib Require Import Ascii QArith Qround.

Open Scope string_scope.
Open Scope list_scope.
Open Scope Z_scope.

(** ** Python exceptions and the interpreter monad *)

Inductive exn : Type :=
  | IndexError (msg : string)
  | KeyError (key : string)
  | ValueError (msg : string)
  | FileNotFoundError (path : string)
  | AudioReadError (msg : string).

(** [str(e)], as interpolated by the f-string of the [except] clause. *)
Definition exn_str (e : exn) : string :=
  match e with
  | IndexError msg => msg
  | KeyError key => "'" +:+ key +:+ "'"
  | ValueError msg => msg
  | FileNotFoundError path => "[Errno 2] No such file or directory: '" +:+ path +:+ "'"
  | AudioReadError msg => msg
  end.

Inductive outcome (A : Type) : Type :=
  | Ok (a : A)
  | Raise (e : exn).
Arguments Ok {A} a.
Arguments Raise {A} e.

(** A computation over a state [S]: it ends with a value or with a raised
    exception, and in both cases leaves the state as it was at that point
    (Python does not roll back the mutations done before a [raise]). *)
Definition Py (S A : Type) : Type := S → outcome A * S.

Definition ret {S A} (a : A) : Py S A := λ s, (Ok a, s).
Definition raise {S A} (e : exn) : Py S A := λ s, (Raise e, s).
Definition bind {S A B} (m : Py S A) (k : A → Py S B) : Py S B :=
  λ s, match m s with
       | (Ok a, s') => k a s'
       | (Raise e, s') => (Raise e, s')
       end.
Definition try_except {S A} (m : Py S A) (handler : exn → Py S A) : Py S A :=
  λ s, match m s with
       | (Ok a, s') => (Ok a, s')
       | (Raise e, s') => handler e s'
       end.
Definition get {S} : Py S S := λ s, (Ok s, s).
Definition modify {S} (f : S → S) : Py S () := λ s, (Ok (), f s).

Declare Scope py_scope.
Delimit Scope py_scope with py.
Notation "x <- m ;; k" := (bind m (λ x, k))
  (at level 100, m at next level, right associativity) : py_scope.
Notation "m ;;; k" := (bind m (λ _, k))
  (at level 100, right associativity) : py_scope.
Open Scope py_scope.

(** [for a in l: body a] *)
Fixpoint for_each {S A} (l : list A) (body : A → Py S ()) : Py S () :=
  match l with
  | [] => ret ()
  | a :: l' => body a ;;; for_each l' body
  end.

(** ** Interpreter state *)

(** numpy's global generator, as two streams of entropy with read cursors:
    raw words for [randint], standard-normal samples for [randn]. *)
Record RandomState : Type := {
  rand_ints : nat → nat;
  int_cursor : nat;
  rand_normals : nat → Q;
  normal_cursor : nat
}.

(** What a path on disk holds, as far as [librosa.load] is concerned. *)
Inductive file : Type :=
  | Audio (samples : list Q) (sr : Z)
  | Corrupt (msg : string).

Record World : Type := {
  fs : gmap string file;
  np_random : RandomState;
  stdout : list string
}.

Definition set_random (r : RandomState) (w : World) : World :=
  {| fs := fs w; np_random := r; stdout := stdout w |}.
Definition set_fs (f : gmap string file) (w : World) : World :=
  {| fs := f; np_random := np_random w; stdout := stdout w |}.

(** [print(line)] *)
Definition print (line : string) : Py World () :=
  modify (λ w, {| fs := fs w; np_random := np_random w; stdout := stdout w ++ [line] |}).

(** ** numpy *)

(** [int(x)] on a float: truncation toward zero. *)
Definition py_int (q : Q) : Z := Z.quot (Qnum q) (Z.pos (Qden q)).

(** The generator after [k] draws of a raw word, resp. of a normal sample. *)
Definition skip_ints (k : nat) (r : RandomState) : RandomState :=
  {| rand_ints := rand_ints r; int_cursor := (int_cursor r + k)%nat;
     rand_normals := rand_normals r; normal_cursor := normal_cursor r |}.
Definition skip_normals (k : nat) (r : RandomState) : RandomState :=
  {| rand_ints := rand_ints r; int_cursor := int_cursor r;
     rand_normals := rand_normals r; normal_cursor := (normal_cursor r + k)%nat |}.

(** [np.random.randint(low, high)]: uniform on [low, high), and
    [ValueError] when the range is empty (numpy words the error after the
    default [low = 0]). [np.random.randint(high)] is [randint 0 high]. *)
Definition randint (low high : Z) : Py World Z := λ w,
  if bool_decide (high ≤ low) then
    (Raise (ValueError (if decide (low = 0) then "high <= 0" else "low >= high")), w)
  else
    let r := np_random w in
    let v := low + Z.of_nat (rand_ints r (int_cursor r)) `mod` (high - low) in
    (Ok v, set_random (skip_ints 1 r) w).

(** [np.random.randn(n)] *)
Definition randn (n : nat) : Py World (list Q) := λ w,
  let r := np_random w in
  (Ok (map (λ i, rand_normals r (normal_cursor r + i)%nat) (seq 0 n)),
   set_random (skip_normals n r) w).

(** [np.roll(a, shift)] on a one-dimensional array: the offset is reduced
    modulo [len(a) or 1]; the last [offset] elements move to the front. *)
Definition np_roll {A} (a : list A) (shift : Z) : list A :=
  let n := length a in
  let offset := Z.to_nat (shift `mod` Z.of_nat (if decide (n = 0%nat) then 1%nat else n)) in
  drop (n - offset) a ++ take (n - offset) a.

(** ** Augmentor *)

Definition add_noise (data : list Q) (noise_factor : Q) : Py World (list Q) :=
  noise <- randn (length data) ;;
  ret (zip_with (λ d z, d + noise_factor * z)%Q data noise).

Definition shift {A} (data : list A) (shift_max : Q) (shift_direction : string)
  : Py World (list A) :=
  shift_amt <- randint 0 (py_int (inject_Z (Z.of_nat (length data)) * shift_max)) ;;
  shift_amt <-
    (if decide (shift_direction = "right") then ret (- shift_amt)
     else if decide (shift_direction = "both") then
       direction <- randint 0 2 ;;
       if decide (direction = 1) then ret (- shift_amt) else ret shift_amt
     else ret shift_amt) ;;
  ret (np_roll data shift_amt).

(** ** Python strings, lists and dicts *)

(** [s.split(sep)] for a one-character separator. *)
Fixpoint split (sep : ascii) (s : string) : list string :=
  match s with
  | EmptyString => [EmptyString]
  | String c s' =>
      if decide (c = sep) then EmptyString :: split sep s'
      else match split sep s' with
           | [] => [String c EmptyString]
           | tok :: toks => String c tok :: toks
           end
  end.

(** [os.path.basename(path)]: what follows the last slash. *)
Definition basename (path : string) : string :=
  List.last (split "/"%char path) EmptyString.

(** [l[i]] for a non-negative index. *)
Definition getitem {S A} (l : list A) (i : nat) : Py S A :=
  match l !! i with
  | Some a => ret a
  | None => raise (IndexError "list index out of range")
  end.

(** [d[key]] on a dict. *)
Definition dict_getitem {S} (d : gmap string string) (key : string) : Py S string :=
  match d !! key with
  | Some v => ret v
  | None => raise (KeyError key)
  end.

(** [v not in l], where [v] may be [None] (the result of [dict.get]). *)
Definition not_in (v : option string) (l : list string) : bool :=
  match v with
  | None => true
  | Some e => negb (bool_decide (e ∈ l))
  end.

(** ** The emotion code table *)

Definition emotions : gmap string string :=
  list_to_map
    [("01", "neutral"); ("02", "calm"); ("03", "happy"); ("04", "sad");
     ("05", "angry"); ("06", "fearful"); ("07", "disgust"); ("08", "surprised")].

(** [list(emotions.values())]; the first notebook also spells the same
    eight strings out as a literal. *)
Definition observed_emotions : list string := (map_to_list emotions).*2.

(** ** Two-dimensional arrays *)

Record ndarray2 : Type := {
  shape0 : nat;
  shape1 : nat;
  cells : list (list Q)
}.

Definition wf_ndarray2 (m : ndarray2) : Prop :=
  length (cells m) = shape0 m ∧ Forall (λ row, length row = shape1 m) (cells m).

(** [m[i, j]] *)
Definition item (m : ndarray2) (i j : nat) : option Q :=
  cells m !! i ≫= (.!! j).

Definition tabulate (r c : nat) (f : nat → nat → Q) : ndarray2 :=
  {| shape0 := r; shape1 := c;
     cells := map (λ i, map (f i) (seq 0 c)) (seq 0 r) |}.

(** [np.pad(m, pad_width=((0,0),(0,pad_width)), mode='constant')] *)
Definition np_pad (m : ndarray2) (pad_width : nat) : ndarray2 :=
  {| shape0 := shape0 m; shape1 := (shape1 m + pad_width)%nat;
     cells := map (λ row, row ++ replicate pad_width 0%Q) (cells m) |}.

(** The stop position of the slice [:k] on an axis of length [len]:
    a negative [k] counts from the end. *)
Definition slice_stop (len : nat) (k : Z) : nat :=
  if bool_decide (k < 0) then Z.to_nat (Z.max 0 (Z.of_nat len + k))
  else Nat.min len (Z.to_nat k).

(** [m[:, :k]] *)
Definition slice_cols (m : ndarray2) (k : Z) : ndarray2 :=
  let stop := slice_stop (shape1 m) k in
  {| shape0 := shape0 m; shape1 := stop; cells := map (take stop) (cells m) |}.

(** [m.T] *)
Definition transpose (m : ndarray2) : ndarray2 :=
  {| shape0 := shape1 m; shape1 := shape0 m;
     cells := map (λ j, map (λ row, nth j row 0%Q) (cells m)) (seq 0 (shape1 m)) |}.

Definition q_sum (l : list Q) : Q := foldr Qplus 0%Q l.

(** [np.mean(m.T, axis=0)]: one mean per row of [m]. (numpy yields nan on
    an empty time axis, which no decoded clip has; the rational quotient
    by zero is 0.) *)
Definition row_means (m : ndarray2) : list Q :=
  map (λ row, q_sum row / inject_Z (Z.of_nat (length row)))%Q (cells m).

(** ** Consumed interfaces *)

(** The spectral primitives of librosa. [librosa.feature.mfcc] returns an
    array of shape [(n_mfcc, T)], [T] depending on the clip's duration. *)
Class Librosa : Type := {
  mfcc_frames : list Q → Z → nat;
  mfcc_coef : list Q → Z → nat → nat → nat → Q;
  stft_abs : list Q → ndarray2;
  chroma_stft : ndarray2 → Z → ndarray2;
  melspectrogram : list Q → Z → ndarray2
}.

(** [sklearn]'s seeded shuffle: [RandomState(seed).permutation(n)]. *)
Class Sklearn : Type := {
  permutation : Z → nat → list nat;
  permutation_perm : ∀ seed n, permutation seed n ≡ₚ seq 0 n
}.

(** A trained Keras model, as far as inference is concerned.
    [model.predict(batch)] runs in the interpreter: it returns the scores
    of the batch, reports its progress on standard output, and may refuse
    a batch it cannot take. *)
Record KerasModel : Type := {
  predict : list ndarray2 → Py World (list (list Q))
}.

Record LabelEncoder : Type := {
  classes_ : list string
}.

(** [LabelEncoder().fit(y)]: the classes are the sorted distinct labels. *)
Definition LabelEncoder_fit (y : list string) : LabelEncoder :=
  {| classes_ := merge_sort (λ a b, String.leb a b) (remove_dups y) |}.

(** [librosa.load(path, res_type='scipy')] *)
Definition librosa_load (path : string) : Py World (list Q * Z) := λ w,
  match fs w !! path with
  | Some (Audio samples sr) => (Ok (samples, sr), w)
  | Some (Corrupt msg) => (Raise (AudioReadError msg), w)
  | None => (Raise (FileNotFoundError path), w)
  end.

(** [librosa.output.write_wav(path, y, sr)], of the releases of librosa
    that have the [output] module: the samples are written as they are,
    and a later load of the path reads them back. *)
Definition write_wav (path : string) (samples : list Q) (sr : Z) : Py World () :=
  modify (λ w, set_fs (<[path := Audio samples sr]> (fs w)) w).

(** [os.remove(path)] *)
Definition os_remove (path : string) : Py World () := λ w,
  match fs w !! path with
  | Some _ => (Ok (), set_fs (delete path (fs w)) w)
  | None => (Raise (FileNotFoundError path), w)
  end.

Section FeatureExtractor.
Context `{Librosa}.

(** [librosa.feature.mfcc(y=y, sr=sr, n_mfcc=n_mfcc)] *)
Definition librosa_mfcc (y : list Q) (sr : Z) (n_mfcc : nat) : ndarray2 :=
  tabulate n_mfcc (mfcc_frames y sr) (mfcc_coef y sr n_mfcc).

(** The pad-or-truncate block of [extract_mfcc_sequence], which
    [load_data_dl] repeats verbatim for its two augmented variants. *)
Definition pad_or_truncate (mfcc : ndarray2) (max_len : Z) : ndarray2 :=
  if bool_decide (Z.of_nat (shape1 mfcc) < max_len) then
    let pad_width := Z.to_nat (max_len - Z.of_nat (shape1 mfcc)) in
    np_pad mfcc pad_width
  else slice_cols mfcc max_len.

Definition extract_mfcc_sequence (file_path : string) (n_mfcc : nat) (max_len : Z)
  : Py World ndarray2 :=
  loaded <- librosa_load file_path ;;
  let '(y, sr) := loaded in
  let mfcc := librosa_mfcc y sr n_mfcc in
  ret (transpose (pad_or_truncate mfcc max_len)).

Definition extract_feature (file_name : string) (mfcc chroma mel : bool)
  : Py World (list Q) :=
  loaded <- librosa_load file_name ;;
  let '(X, sample_rate) := loaded in
  let result := [] in
  let result :=
    if mfcc then result ++ row_means (librosa_mfcc X sample_rate 40) else result in
  let result :=
    if chroma then result ++ row_means (chroma_stft (stft_abs X) sample_rate)
    else result in
  let result :=
    if mel then result ++ row_means (melspectrogram X sample_rate) else result in
  ret result.
End FeatureExtractor.

(** ** Dataset Builder *)

(** What Python passes as a [test_size]: a float, an int or [None]. A
    rational written where a size is expected is the float. *)
Inductive py_size : Type :=
  | size_float (fraction : Q)
  | size_int (count : Z)
  | size_None.
Coercion size_float : Q >-> py_size.

(** The two local lists [x] and [y] of the loaders. *)
Record Dataset (F : Type) : Type := {
  ds_x : list F;
  ds_y : list string
}.
Arguments ds_x {F} d.
Arguments ds_y {F} d.

Definition liftW {D A} (m : Py World A) : Py (World * D) A := λ s,
  let '(r, w') := m s.1 in (r, (w', s.2)).

(** [x.append(feature); y.append(emotion)] *)
Definition append {F} (feature : F) (emotion : string) : Py (World * Dataset F) () :=
  modify (λ s, (s.1, {| ds_x := ds_x s.2 ++ [feature]; ds_y := ds_y s.2 ++ [emotion] |})).

Definition empty_dataset {F} : Dataset F := {| ds_x := []; ds_y := [] |}.

(** [x[indices]] for an index array. *)
Definition take_indices {A} (l : list A) (indices : list nat) : list A :=
  omap (λ i, l !! i) indices.

Section DatasetBuilder.
Context `{Librosa} `{Sklearn}.

(** *** Deep-learning path, [last-4.ipynb] *)

(** Body of the [for file in files] loop of [load_data_dl]. *)
Definition load_data_dl_body (max_len : Z) (augment : bool) (file : string)
  : Py (World * Dataset ndarray2) () :=
  let file_name := basename file in
  emotion_code <- getitem (split "-"%char file_name) 2 ;;
  let emotion := emotions !! emotion_code in
  if not_in emotion observed_emotions then ret ()
  else
    match emotion with
    | None => ret ()
    | Some emotion =>
        try_except
          (mfcc_seq <- liftW (extract_mfcc_sequence file 40 max_len) ;;
           append mfcc_seq emotion ;;;
           if augment then
             loaded <- liftW (librosa_load file) ;;
             let '(y_audio, sr) := loaded in
             noisy <- liftW (add_noise y_audio (5 # 1000)) ;;
             let mfcc_noise := librosa_mfcc noisy sr 40 in
             let mfcc_noise := pad_or_truncate mfcc_noise max_len in
             append (transpose mfcc_noise) emotion ;;;
             y_shift <- liftW (shift y_audio (2 # 10) "both") ;;
             let mfcc_shift := librosa_mfcc y_shift sr 40 in
             let mfcc_shift := pad_or_truncate mfcc_shift max_len in
             append (transpose mfcc_shift) emotion
           else ret ())
          (λ e, liftW (print ("Error processing " +:+ file +:+ ": " +:+ exn_str e)))
    end.

(** The enumeration of [load_data_dl] over the globbed [files]. The
    version of the first notebook is the same loop without the
    [augment] branch, that is [load_data_dl_files max_len false]. What
    follows the loop runs inside scikit-learn and Keras: the encoder is
    [LabelEncoder_fit] of the collected labels, the split is
    [train_test_split(..., random_state=42, stratify=y)]. *)
Definition load_data_dl_files (max_len : Z) (augment : bool) (files : list string)
  : Py (World * Dataset ndarray2) () :=
  for_each files (load_data_dl_body max_len augment).

(** *** Classical path, first notebook *)

Definition load_data_body (augment : bool) (file : string)
  : Py (World * Dataset (list Q)) () :=
  let file_name := basename file in
  emotion_code <- getitem (split "-"%char file_name) 2 ;;
  emotion <- dict_getitem emotions emotion_code ;;
  if not_in (Some emotion) observed_emotions then ret ()
  else
    feature <- liftW (extract_feature file true true true) ;;
    append feature emotion ;;;
    if augment then
      loaded <- liftW (librosa_load file) ;;
      let '(y_audio, sr) := loaded in
      feature_noise <- liftW (extract_feature file true true true) ;;
      append feature_noise emotion ;;;
      y_shift <- liftW (shift y_audio (2 # 10) "both") ;;
      let temp_file := "temp_shift.wav" in
      liftW (write_wav temp_file y_shift sr) ;;;
      feature_shift <- liftW (extract_feature temp_file true true true) ;;
      append feature_shift emotion ;;;
      liftW (os_remove temp_file)
    else ret ().

Definition load_data_files (augment : bool) (files : list string)
  : Py (World * Dataset (list Q)) () :=
  for_each files (load_data_body augment).

(** The number of test samples that scikit-learn reads off [test_size]: a
    float is a fraction of the samples, strictly between 0 and 1, and
    counts [ceil(test_size * n)] of them; an int is the count itself,
    positive and below the number of samples; [None] stands for 0.25.
    The product is exact here, where the code rounds a product of
    doubles. (The messages are cut short.) *)
Definition n_test_samples (test_size : py_size) (n_samples : nat) : outcome nat :=
  match test_size with
  | size_int count =>
      if bool_decide (count ≤ 0) || bool_decide (Z.of_nat n_samples ≤ count) then
        Raise (ValueError "test_size should be positive and smaller than the number of samples")
      else Ok (Z.to_nat count)
  | size_float fraction =>
      if Qle_bool fraction 0 || Qle_bool 1 fraction then
        Raise (ValueError "test_size should be in the (0, 1) range")
      else Ok (Z.to_nat (Qceiling (fraction * inject_Z (Z.of_nat n_samples))))
  | size_None =>
      Ok (Z.to_nat (Qceiling ((25 # 100) * inject_Z (Z.of_nat n_samples))))
  end.

(** [train_test_split(x, y, test_size=test_size, random_state=seed)]
    without [stratify]: scikit-learn cuts one seeded permutation of the
    positions, the first [n_test] of them being the test partition. *)
Definition train_test_split {S X Y} (x : list X) (y : list Y) (test_size : py_size)
    (random_state : Z) : Py S (list X * list X * list Y * list Y) :=
  let n_samples := length x in
  if negb (bool_decide (length y = n_samples)) then
    raise (ValueError "Found input variables with inconsistent numbers of samples")
  else
    match n_test_samples test_size n_samples with
    | Raise e => raise e
    | Ok n_test =>
        let n_train := (n_samples - n_test)%nat in
        if bool_decide (n_train = 0%nat) then
          raise (ValueError "the resulting train set will be empty")
        else
          let perm := permutation random_state n_samples in
          let ind_test := take n_test perm in
          let ind_train := take n_train (drop n_test perm) in
          ret (take_indices x ind_train, take_indices x ind_test,
               take_indices y ind_train, take_indices y ind_test)
    end.

(** [load_data(test_size, augment)] over the globbed [files]. *)
Definition load_data (test_size : py_size) (augment : bool) (files : list string)
  : Py (World * Dataset (list Q)) (list (list Q) * list (list Q) * list string * list string) :=
  modify (λ s, (s.1, empty_dataset)) ;;;
  load_data_files augment files ;;;
  s <- get ;;
  train_test_split (ds_x s.2) (ds_y s.2) test_size 9.
End DatasetBuilder.

(** ** Class-Imbalance Corrector *)

(** [np.unique(y)]: the sorted distinct values. *)
Definition np_unique (y : list nat) : list nat :=
  merge_sort (≤)%nat (remove_dups y).

(** [np.bincount(y)[c]] *)
Definition bincount (y : list nat) (c : nat) : nat :=
  length (filter (λ v, v = c) y).

(** [compute_class_weight('balanced', classes=classes, y=y)]:
    [len(y) / (n_classes * np.bincount(y))], read at each of [classes];
    scikit-learn refuses labels that are empty with a [ValueError]
    (its message is not modelled). *)
Definition compute_class_weight (classes y : list nat) : outcome (list Q) :=
  if bool_decide (y = []) then Raise (ValueError "y is empty")
  else if bool_decide (Forall (λ c, c ∈ y) classes) then
    let n_classes := length (np_unique y) in
    Ok (map (λ c, inject_Z (Z.of_nat (length y))
                  / (inject_Z (Z.of_nat n_classes) * inject_Z (Z.of_nat (bincount y c))))%Q
            classes)
  else Raise (ValueError "classes should have valid labels that are in y").

(** [dict(enumerate(compute_class_weight('balanced',
      classes=np.unique(y_train_labels), y=y_train_labels)))] *)
Definition class_weight_dict (y_train_labels : list nat) : outcome (gmap nat Q) :=
  match compute_class_weight (np_unique y_train_labels) y_train_labels with
  | Ok class_weights => Ok (map_seq 0 class_weights)
  | Raise e => Raise e
  end.

(** ** Predictor *)

Fixpoint argmax_from (best_i : nat) (best : Q) (i : nat) (l : list Q) : nat :=
  match l with
  | [] => best_i
  | v :: l' =>
      if Qlt_le_dec best v then argmax_from i v (S i) l'
      else argmax_from best_i best (S i) l'
  end.

(** [np.argmax(a)]: position of the first maximum of the flattened array. *)
Definition np_argmax {S} (a : list Q) : Py S nat :=
  match a with
  | [] => raise (ValueError "attempt to get argmax of an empty sequence")
  | v :: a' => ret (argmax_from 0 v 1 a')
  end.

Section Predictor.
Context `{Librosa}.

Definition predict_emotion (file_path : string) (model : KerasModel)
    (le : LabelEncoder) (max_len : Z) : Py World string :=
  mfcc_seq <- extract_mfcc_sequence file_path 40 max_len ;;
  let mfcc_seq := [mfcc_seq] in
  pred <- predict model mfcc_seq ;;
  predicted_class <- np_argmax (concat pred) ;;
  getitem (classes_ le) predicted_class.
End Predictor.

(** ** Label encoding and one-hot targets *)

(** The code of a label: its position among the classes. *)
Definition index_of (classes : list string) (label : string) : option nat :=
  fst <$> list_find (λ c, c = label) classes.

(** The width of numpy's fixed-width string type of [classes_]: the length
    of the longest class, and 1 at least; and the cast of a label to that
    type, which keeps its first [width] characters. *)
Definition dtype_width (classes : list string) : nat :=
  Nat.max 1 (max_list (String.length <$> classes)).
Definition astype (width : nat) (label : string) : string :=
  String.substring 0 width label.

(** [le.transform(y)]: the labels are first cast to the type of
    [classes_], then looked up; [ValueError] on a label that is not found
    (its message goes on to list the labels that were not seen). *)
Definition LabelEncoder_transform {S} (le : LabelEncoder) (y : list string)
  : Py S (list nat) :=
  let y := astype (dtype_width (classes_ le)) <$> y in
  match mapM (index_of (classes_ le)) y with
  | Some codes => ret codes
  | None => raise (ValueError "y contains previously unseen labels")
  end.

(** [to_categorical(y)]: one row per code, of width [max(y) + 1], with a
    single 1 at the code; numpy's [max] rejects an empty [y]. *)
Definition one_hot (num_classes code : nat) : list Q :=
  map (λ j, if decide (j = code) then 1%Q else 0%Q) (seq 0 num_classes).
Definition to_categorical (y : list nat) : outcome (list (list Q)) :=
  match y with
  | [] => Raise (ValueError "zero-size array to reduction operation maximum which has no identity")
  | _ => Ok (map (one_hot (S (max_list y))) y)
  end.

(** [np.argmax(y, axis=1)] on rows that are not empty. *)
Definition argmax_rows (y : list (list Q)) : list nat :=
  map (λ row, match row with [] => 0%nat | v :: row' => argmax_from 0 v 1 row' end) y.

(** The tail of [load_data_dl]: [le.fit_transform(y)] then
    [to_categorical(y_enc)]. *)
Definition encode_labels {S} (y : list string)
  : Py S (LabelEncoder * list (list Q)) :=
  let le := LabelEncoder_fit y in
  y_enc <- LabelEncoder_transform le y ;;
  y_cat <- (λ s, (to_categorical y_enc, s)) ;;
  ret (le, y_cat).

(** ** Model Builder *)

(** The Keras layers of [build_cnn_lstm], with the arguments the code gives
    them (activations do not bear on shapes and are left out; [Conv1D] and
    [MaxPooling1D] keep their defaults, padding 'valid', the stride of the
    pooling its [pool_size]; [LSTM] is given [return_sequences=False]). *)
Inductive layer : Type :=
| Conv1D (filters kernel_size : nat)
| BatchNormalization
| MaxPooling1D (pool_size : nat)
| Dropout (rate : Q)
| LSTM (units : nat)
| Dense (units : nat).

(** The shape of a layer's output for one example, as Keras infers it when
    the layer is added; a time axis shorter than the window is refused
    (the messages are cut short). *)
Definition compute_output_shape (l : layer) (input_shape : list nat)
  : outcome (list nat) :=
  match l, input_shape with
  | Conv1D filters kernel_size, [steps; _] =>
      if decide (kernel_size ≤ steps)%nat
      then Ok [(steps - kernel_size + 1)%nat; filters]
      else Raise (ValueError "Negative dimension size")
  | MaxPooling1D pool_size, [steps; channels] =>
      if decide (pool_size ≤ steps)%nat
      then Ok [((steps - pool_size) / pool_size + 1)%nat; channels]
      else Raise (ValueError "Negative dimension size")
  | LSTM units, [_; _] => Ok [units]
  | Dense units, [_] => Ok [units]
  | Dense units, [steps; _] => Ok [steps; units]
  | BatchNormalization, _ | Dropout _, _ => Ok input_shape
  | _, _ => Raise (ValueError "Input is incompatible with the layer")
  end.

(** [Sequential()] with its [add]: the layers in order, each checked
    against the output of the one before. *)
Fixpoint Sequential (layers : list layer) (input_shape : list nat)
  : outcome (list nat) :=
  match layers with
  | [] => Ok input_shape
  | l :: layers' =>
      match compute_output_shape l input_shape with
      | Ok shape => Sequential layers' shape
      | Raise e => Raise e
      end
  end.

Definition cnn_lstm_layers (num_classes : nat) : list layer :=
  [ Conv1D 64 5; BatchNormalization; MaxPooling1D 2; Dropout (3 # 10);
    Conv1D 128 5; BatchNormalization; MaxPooling1D 2; Dropout (3 # 10);
    LSTM 128; Dense 64; Dropout (3 # 10); Dense num_classes ].

(** [build_cnn_lstm(input_shape, num_classes)], as far as shapes go: the
    output shape of the model it returns. *)
Definition build_cnn_lstm (input_shape : list nat) (num_classes : nat)
  : outcome (list nat) :=
  Sequential (cnn_lstm_layers num_classes) input_shape.

(** ** Vocabulary of the statements *)

(** The exclusive upper end of the draw of [shift]:
    [int(len(data) * shift_max)]. *)
Definition shift_bound {A} (data : list A) (shift_max : Q) : Z :=
  py_int (inject_Z (Z.of_nat (length data)) * shift_max).

(** The world after [shift] has drawn its magnitude. *)
Definition after_draw (w : World) : World :=
  set_random (skip_ints 1 (np_random w)) w.

(** The third hyphen-delimited token of a clip's file name, and the label
    the code table gives it. *)
Definition emotion_code_of (file : string) : option string :=
  split "-"%char (basename file) !! 2%nat.
Definition label_of (file : string) : option string :=
  emotion_code_of file ≫= (emotions !!.).

(** The error [librosa.load] ends with on what a path holds, if any. *)
Definition load_failure (path : string) (content : option file) : option exn :=
  match content with
  | Some (Audio _ _) => None
  | Some (Corrupt msg) => Some (AudioReadError msg)
  | None => Some (FileNotFoundError path)
  end.


Definition examples_per_clip (augment : bool) : nat := if augment then 3%nat else 1%nat.

(** The examples that [load_data_dl] keeps of a readable clip of the
    table: one without augmentation and three with it, unless the clip
    is too short for [shift] to draw, which loses the third. *)
Definition kept_examples (augment : bool) (samples : list Q) : nat :=
  if augment then
    if bool_decide (1 ≤ shift_bound samples (2 # 10)) then 3%nat else 2%nat
  else 1%nat.

(** The labels that [load_data_dl] appends over [files], one per example
    kept, and the lines it prints: one for each clip of the table that
    does not decode and, under augmentation, one for each that is too
    short. *)
Definition kept_labels (augment : bool) (disk : gmap string file)
    (files : list string) : list string :=
  flat_map (λ path,
              match label_of path, disk !! path with
              | Some emotion, Some (Audio samples _) =>
                  replicate (kept_examples augment samples) emotion
              | _, _ => []
              end) files.

(** The fixed-shape sequence of a waveform, and the waveform
    [add_noise] makes of it in a given world. *)
Definition sequence_of `{Librosa} (y : list Q) (sr : Z) (max_len : Z) : ndarray2 :=
  transpose (pad_or_truncate (librosa_mfcc y sr 40) max_len).
Definition noisy (w : World) (y : list Q) (noise_factor : Q) : list Q :=
  zip_with (λ d z, d + noise_factor * z)%Q y
    (map (λ i, rand_normals (np_random w) (normal_cursor (np_random w) + i)%nat)
         (seq 0 (length y))).

(** The pooled feature vector of a waveform: what [extract_feature]
    computes, with its three flags set, once the file is decoded. *)
Definition pooled_feature `{Librosa} (X : list Q) (sample_rate : Z) : list Q :=
  row_means (librosa_mfcc X sample_rate 40)
  ++ row_means (chroma_stft (stft_abs X) sample_rate)
  ++ row_means (melspectrogram X sample_rate).
Arguments pooled_feature : simpl never.


(** [c in s] for a character. *)
Fixpoint has_char (c : ascii) (s : string) : bool :=
  match s with
  | EmptyString => false
  | String c' s' => bool_decide (c' = c) || has_char c s'
  end.

(** What every example of the deep-learning dataset looks like. *)
Definition fixed_shape (max_len : Z) (m : ndarray2) : Prop :=
  wf_ndarray2 m ∧ shape0 m = Z.to_nat max_len ∧ shape1 m = 40%nat.

(** The test size that [train_test_split] derives from a [test_size] it
    accepts, and when it accepts one. *)
Definition n_test_of (test_size : py_size) (n_samples : nat) : nat :=
  match test_size with
  | size_float fraction => Z.to_nat (Qceiling (fraction * inject_Z (Z.of_nat n_samples)))
  | size_int count => Z.to_nat count
  | size_None => Z.to_nat (Qceiling ((25 # 100) * inject_Z (Z.of_nat n_samples)))
  end.
Definition size_in_range (test_size : py_size) (n_samples : nat) : Prop :=
  match test_size with
  | size_float fraction => (0 < fraction)%Q ∧ (fraction < 1)%Q
  | size_int count => 0 < count < Z.of_nat n_samples
  | size_None => True
  end.


(** The balanced weight of a class with [count] examples among [total],
    over [num_classes] classes. *)
Definition balanced_weight (total num_classes count : nat) : Q :=
  inject_Z (Z.of_nat total)
  / (inject_Z (Z.of_nat num_classes) * inject_Z (Z.of_nat count)).

(** ** A concrete instantiation

    Small collaborators and a small corpus on which the pipeline can be
    evaluated: frames of four samples, coefficients read off the first
    sample of each frame, a shuffle that reverses the positions. *)

Definition sample_librosa : Librosa := {|
  mfcc_frames y sr := (1 + length y / 4)%nat;
  mfcc_coef y sr n_mfcc c t := (inject_Z (Z.of_nat (c + 1)) * nth (4 * t) y 0)%Q;
  stft_abs y := tabulate 2 (1 + length y / 4) (λ i t, nth (4 * t + i) y 0%Q);
  chroma_stft S sr :=
    tabulate 12 (shape1 S) (λ c t, nth t (nth (c mod 2) (cells S) []) 0%Q);
  melspectrogram y sr := tabulate 128 (1 + length y / 4) (λ c t, nth (4 * t) y 0%Q)
|}.

Definition sample_sklearn : Sklearn := {|
  permutation seed n := reverse (seq 0 n);
  permutation_perm seed n := reverse_Permutation (seq 0 n)
|}.

Definition sample_random : RandomState := {|
  rand_ints i := (7 * i + 3)%nat; int_cursor := 0;
  rand_normals i := (Z.of_nat i # 10)%Q; normal_cursor := 0
|}.

Definition angry_clip : string := "Actor_01/03-01-05-01-01-01-01.wav".
Definition happy_clip : string := "Actor_01/03-01-03-01-01-01-01.wav".
Definition short_clip : string := "Actor_02/03-01-04-01-01-01-02.wav".
Definition broken_clip : string := "Actor_02/03-01-06-01-01-01-02.wav".
Definition unknown_code_clip : string := "Actor_03/03-01-09-01-01-01-03.wav".
Definition stray_clip : string := "Actor_03/notes.wav".

Definition ten_samples : list Q :=
  [1 # 10; 2 # 10; 3 # 10; 4 # 10; 5 # 10; 6 # 10; 7 # 10; 8 # 10; 9 # 10; 1]%Q.
Definition four_samples : list Q := [1 # 10; 2 # 10; 3 # 10; 4 # 10]%Q.

Definition sample_world : World := {|
  fs := list_to_map
          [(angry_clip, Audio ten_samples 22050);
           (happy_clip, Audio (reverse ten_samples) 22050);
           (short_clip, Audio four_samples 22050);
           (broken_clip, Corrupt "file does not start with RIFF id");
           (unknown_code_clip, Audio ten_samples 22050);
           (stray_clip, Audio ten_samples 22050)];
  np_random := sample_random;
  stdout := []
|}.


(** A three-class model that scores by the first coefficient of the first
    frame and prints the progress line recorded in the notebook, and the
    encoder fitted on labels of its three classes. *)
Definition sample_progress : string :=
  "1/1 [==============================] - 0s 62ms/step".
Definition sample_model : KerasModel := {|
  predict batch :=
    print sample_progress ;;;
    ret (map (λ x, let v := default 0%Q (item x 0 0) in [v; 1 - v; 1 # 2]%Q) batch)
|}.
Definition sample_encoder : LabelEncoder :=
  LabelEncoder_fit ["happy"; "angry"; "sad"; "angry"; "happy"].

(** The sample world once the model has reported a prediction, and the
    scores of the sample model on the first clip. *)
Definition after_prediction : World :=
  {| fs := fs sample_world; np_random := np_random sample_world;
     stdout := stdout sample_world ++ [sample_progress] |}.
Definition predicted_scores : list (list Q) :=
  [[1 # 10; 1 - (1 # 10); 1 # 2]%Q].



(** *** A balanced corpus for the split

    Ten actors, each with one happy (code 03) and one sad (code 04)
    recording on disk. A corpus takes one clip per actor; [lopsided_corpus]
    takes five happy and five sad ones, the happy ones including the actors
    at the two given positions. *)
Definition actor_clip (code : string) (i : nat) : string :=
  "Actor_0" +:+ String (ascii_of_nat (48 + i)) "" +:+ "/03-01-" +:+ code
  +:+ "-01-01-01-01.wav".

Definition balanced_world : World := {|
  fs := list_to_map
          (flat_map (λ i, [(actor_clip "03" i, Audio ten_samples 22050);
                           (actor_clip "04" i, Audio (reverse ten_samples) 22050)])
                    (seq 0 10));
  np_random := sample_random;
  stdout := []
|}.

Definition happy_positions (p0 p1 : nat) : list nat :=
  p0 :: p1 :: take 3 (filter (λ i, i ≠ p0 ∧ i ≠ p1) (seq 0 10)).

Definition lopsided_corpus (p0 p1 : nat) : list string :=
  map (λ i, actor_clip (if bool_decide (i ∈ happy_positions p0 p1) then "03" else "04") i)
      (seq 0 10).

(** The test labels in what [train_test_split] returns. *)
Definition y_test_of {X Y} (r : outcome (list X * list X * list Y * list Y))
  : option (list Y) :=
  match r with
  | Ok (_, _, _, y_test) => Some y_test
  | Raise _ => None
  end.

Definition count_label (label : string) (y : list string) : nat :=
  length (filter (λ l, l = label) y).

(** *** The runs recorded in the first notebook

    Class counts of the training partition printed after [load_data], and
    the per-class support of the test partition in the two classification
    reports: the one of the classical path, split by [load_data], and the
    one of the deep-learning path, split by [load_data_dl] with
    [stratify=y], over the same 2452 clips. *)
Definition recorded_train_counts : list (string * Z) :=
  [("happy", 312); ("angry", 307); ("sad", 301); ("calm", 298); ("fearful", 296);
   ("surprised", 154); ("disgust", 149); ("neutral", 144)].
Definition recorded_test_support : list (string * Z) :=
  [("angry", 69); ("calm", 78); ("disgust", 43); ("fearful", 80); ("happy", 64);
   ("neutral", 44); ("sad", 75); ("surprised", 38)].
Definition recorded_test_support_dl : list (string * Z) :=
  [("angry", 75); ("calm", 75); ("disgust", 39); ("fearful", 75); ("happy", 75);
   ("neutral", 38); ("sad", 75); ("surprised", 39)].

Definition recorded (counts : list (string * Z)) (label : string) : Z :=
  default 0 ((λ found, found.2.2) <$> list_find (λ entry, entry.1 = label) counts).

(** The share of a class that a recorded test partition holds. *)
Definition test_share (support : list (string * Z)) (label : string) : Q :=
  inject_Z (recorded support label)
  / inject_Z (recorded recorded_train_counts label + recorded recorded_test_support label).

(** *** Further inputs

    The generator of the sample world after [k] integer draws, a small
    table of coefficients, and a dataset of five numbered examples. *)
Definition after_ints (k : nat) : World :=
  set_random (skip_ints k sample_random) sample_world.

Definition sample_mfcc : ndarray2 := @librosa_mfcc sample_librosa ten_samples 22050 2.

Definition five_examples : list nat := [1; 2; 3; 4; 5]%nat.
Definition five_labels : list string := ["calm"; "happy"; "calm"; "sad"; "happy"].

(** * Properties *)

(** ** Rotation *)

Section Roll.
Context {A : Type}.
Implicit Types a : list A.

Lemma np_roll_length a k : length (np_roll a k) = length a.
Proof.
  unfold np_roll. rewrite length_app, length_drop, length_take. lia.
Qed.

Lemma np_roll_Permutation a k : np_roll a k ≡ₚ a.
Proof.
  unfold np_roll. rewrite Permutation_app_comm. by rewrite take_drop.
Qed.

(** Rolling by a multiple of the length changes nothing. *)
Lemma np_roll_0 a k :
  k `mod` Z.of_nat (length a) = 0 → np_roll a k = a.
Proof.
  intros Hk. destruct a as [|x a]; [done|].
  unfold np_roll. case_decide; [done|]. rewrite Hk. simpl Z.to_nat.
  rewrite Nat.sub_0_r, drop_all, firstn_all. done.
Qed.

Lemma np_roll_inverse a k : np_roll (np_roll a k) (- k) = a.
Proof.
  destruct (decide (length a = 0%nat)) as [Hn|Hn].
  { apply length_zero_iff_nil in Hn. by subst. }
  set (n := length a) in *.
  assert (Hpos : 0 < Z.of_nat n) by lia.
  destruct (decide (k `mod` Z.of_nat n = 0)) as [H0|H0].
  { rewrite (np_roll_0 a k) by done. apply np_roll_0.
    fold n. by apply Z.mod_opp_l_z; [lia|]. }
  pose proof (Z.mod_pos_bound k (Z.of_nat n) Hpos) as Hb.
  assert (Hopp : (- k) `mod` Z.of_nat n = Z.of_nat n - k `mod` Z.of_nat n)
    by (apply Z.mod_opp_l_nz; [lia|done]).
  unfold np_roll at 1. rewrite np_roll_length. fold n.
  rewrite decide_False by done. rewrite Hopp.
  unfold np_roll. fold n. rewrite decide_False by done.
  set (off := Z.to_nat (k `mod` Z.of_nat n)).
  replace (Z.to_nat (Z.of_nat n - k `mod` Z.of_nat n)) with (n - off)%nat by lia.
  assert (Hoff : (0 < off < n)%nat) by lia.
  replace (n - (n - off))%nat with off by lia.
  rewrite drop_app_length', take_app_length'
    by (rewrite length_drop; fold n; lia).
  apply take_drop.
Qed.
End Roll.

(** ** Augmentor: [shift] *)

Lemma py_int_lt_1 (q : Q) : (q < 1)%Q → py_int q ≤ 0.
Proof.
  unfold Qlt, py_int. simpl. intros Hq.
  destruct (decide (0 ≤ Qnum q)) as [Hn|Hn].
  - rewrite Z.quot_small by lia. done.
  - replace (Qnum q) with (- - Qnum q) by lia.
    rewrite Z.quot_opp_l by done.
    assert (0 ≤ - Qnum q ÷ Z.pos (Qden q)) by (apply Z.quot_pos; lia). lia.
Qed.

Lemma randint_empty high w :
  high ≤ 0 → randint 0 high w = (Raise (ValueError "high <= 0"), w).
Proof. intros. unfold randint. by rewrite bool_decide_eq_true_2. Qed.

Lemma randint_draw low high w :
  low < high →
  ∃ v, low ≤ v < high ∧ randint low high w = (Ok v, after_draw w).
Proof.
  intros Hlt. unfold randint. rewrite bool_decide_eq_false_2 by lia.
  eexists; split; [|reflexivity].
  pose proof (Z.mod_pos_bound (Z.of_nat (rand_ints (np_random w) (int_cursor (np_random w))))
                (high - low)). lia.
Qed.

Section Shift.
Context {A : Type}.
Implicit Types data : list A.

(** Without a non-empty draw range [shift] raises, whatever the direction. *)
Lemma shift_empty_range data shift_max dir w :
  shift_bound data shift_max ≤ 0 →
  shift data shift_max dir w = (Raise (ValueError "high <= 0"), w).
Proof.
  intros Hb. unfold shift, bind. fold (shift_bound data shift_max).
  by rewrite randint_empty.
Qed.

(** With a non-empty range it returns a rotation of [data], by a
    magnitude below the bound, of either sign. *)
Lemma shift_rotates data shift_max dir w :
  1 ≤ shift_bound data shift_max →
  ∃ k w', - shift_bound data shift_max < k < shift_bound data shift_max ∧
          shift data shift_max dir w = (Ok (np_roll data k), w').
Proof.
  intros Hb. unfold shift, bind. fold (shift_bound data shift_max).
  destruct (randint_draw 0 (shift_bound data shift_max) w) as (v & Hv & ->); [lia|].
  repeat case_decide.
  - exists (- v), (after_draw w). split; [lia|done].
  - destruct (randint_draw 0 2 (after_draw w)) as (d & Hd & ->); [lia|].
    case_decide.
    + exists (- v). eexists. split; [lia|done].
    + exists v. eexists. split; [lia|done].
  - exists v, (after_draw w). split; [lia|done].
Qed.

End Shift.

(** C6. The claim asks that a waveform with [len * max_fraction < 1] be
    returned unchanged and without an error. The code does the opposite on
    every such input: the bound [int(len * shift_max)] is then at most 0,
    [np.random.randint] rejects the empty range, and [shift] ends with that
    [ValueError], for all three directions and every random state. *)
Theorem shift_degenerate_range_raises {A} (data : list A) (shift_max : Q)
    (shift_direction : string) (w : World) :
  (inject_Z (Z.of_nat (length data)) * shift_max < 1)%Q →
  shift data shift_max shift_direction w = (Raise (ValueError "high <= 0"), w).
Proof.
  intros Hlt. apply shift_empty_range. unfold shift_bound. by apply py_int_lt_1.
Qed.

Lemma shift_degenerate_range_raises_witness :
  (inject_Z (Z.of_nat (length four_samples)) * (2 # 10) < 1)%Q ∧
  shift four_samples (2 # 10) "both" sample_world
  = (Raise (ValueError "high <= 0"), sample_world).
Proof.
  split; [reflexivity|].
  apply (shift_degenerate_range_raises four_samples (2 # 10) "both" sample_world).
  reflexivity.
Defined.

(** C8. [shift] rotates circularly. Whenever its draw range is not empty
    it returns [np.roll data k] for a magnitude [k] below the bound, of
    either sign; and whatever it returns, on any waveform, is such a
    rotation: a permutation of the input samples (none created, none
    dropped, none zero-filled), of the same length, which the inverse
    rotation [np.roll _ (-k)] takes back to the input exactly. *)
Theorem shift_is_invertible_rotation {A} (data : list A) (shift_max : Q)
    (shift_direction : string) (w : World) :
  (1 ≤ shift_bound data shift_max →
   ∃ k w',
     - shift_bound data shift_max < k < shift_bound data shift_max ∧
     shift data shift_max shift_direction w = (Ok (np_roll data k), w')) ∧
  (∀ out w',
     shift data shift_max shift_direction w = (Ok out, w') →
     ∃ k, out = np_roll data k ∧
          out ≡ₚ data ∧
          length out = length data ∧
          np_roll out (- k) = data).
Proof.
  split; [apply shift_rotates|].
  intros out w' Hout.
  destruct (decide (1 ≤ shift_bound data shift_max)) as [Hb|Hb].
  - destruct (shift_rotates data shift_max shift_direction w Hb) as (k & w'' & _ & Heq).
    rewrite Heq in Hout. injection Hout as <- _.
    exists k. split_and!; [done|..].
    + apply np_roll_Permutation.
    + apply np_roll_length.
    + apply np_roll_inverse.
  - rewrite shift_empty_range in Hout by lia. done.
Qed.

Lemma shift_is_invertible_rotation_witness :
  1 ≤ shift_bound ten_samples (2 # 10) ∧
  ∃ k w',
    shift ten_samples (2 # 10) "both" sample_world = (Ok (np_roll ten_samples k), w') ∧
    np_roll ten_samples k ≡ₚ ten_samples ∧
    length (np_roll ten_samples k) = length ten_samples ∧
    np_roll (np_roll ten_samples k) (- k) = ten_samples.
Proof.
  assert (Hb : 1 ≤ shift_bound ten_samples (2 # 10)) by (by vm_compute).
  split; [exact Hb|].
  destruct (shift_is_invertible_rotation ten_samples (2 # 10) "both" sample_world)
    as [Hret Hrot].
  destruct (Hret Hb) as (k & w' & _ & Heq).
  destruct (Hrot _ _ Heq) as (k' & Hk' & Hperm & Hlen & Hinv).
  exists k', w'. rewrite <- Hk'. done.
Defined.

(** C10. A direction that is neither ['right'] nor ['both'] is not
    validated: [shift] behaves on it exactly as on ['left']. When
    [np.random.randint] returns the magnitude [k], [shift] returns the
    rotation by that very [k], not negated, in the state the draw leaves.
    The claim's "raises no error" does not hold of every waveform: when
    the draw is refused, which is when [int(len(data) * shift_max)] is
    not positive, the [ValueError] of the draw is the outcome of [shift],
    for these directions as for the other two. *)
Theorem shift_unrecognized_direction {A} (data : list A) (shift_max : Q)
    (shift_direction : string) (w : World) :
  shift_direction ≠ "right" → shift_direction ≠ "both" →
  shift data shift_max shift_direction w = shift data shift_max "left" w ∧
  match randint 0 (shift_bound data shift_max) w with
  | (Ok k, w') =>
      0 ≤ k < shift_bound data shift_max ∧
      shift data shift_max shift_direction w = (Ok (np_roll data k), w')
  | (Raise e, w') =>
      shift_bound data shift_max ≤ 0 ∧ e = ValueError "high <= 0" ∧
      shift data shift_max shift_direction w = (Raise e, w)
  end.
Proof.
  intros Hr Hb. split.
  - unfold shift, bind. destruct (randint 0 _ w) as [[v|e] w']; [|done].
    by rewrite !decide_False by done.
  - destruct (decide (1 ≤ shift_bound data shift_max)) as [Hpos|Hneg].
    + destruct (randint_draw 0 (shift_bound data shift_max) w) as (k & Hk & Hdraw); [lia|].
      rewrite Hdraw. split; [done|].
      unfold shift, bind. fold (shift_bound data shift_max). rewrite Hdraw.
      by rewrite !decide_False by done.
    + rewrite randint_empty by lia. split_and!; [lia|done|].
      apply shift_empty_range. lia.
Qed.

Lemma shift_unrecognized_direction_witness :
  (shift ten_samples (2 # 10) "sideways" sample_world
   = shift ten_samples (2 # 10) "left" sample_world ∧
   randint 0 (shift_bound ten_samples (2 # 10)) sample_world
   = (Ok 1, after_draw sample_world) ∧
   shift ten_samples (2 # 10) "sideways" sample_world
   = (Ok (np_roll ten_samples 1), after_draw sample_world)) ∧
  (shift four_samples (2 # 10) "sideways" sample_world
   = shift four_samples (2 # 10) "left" sample_world ∧
   shift four_samples (2 # 10) "sideways" sample_world
   = (Raise (ValueError "high <= 0"), sample_world)).
Proof.
  split.
  - destruct (shift_unrecognized_direction ten_samples (2 # 10) "sideways" sample_world)
      as [Hleft Hdraw]; [done..|].
    split; [exact Hleft|]. split; [reflexivity|].
    exact (proj2 Hdraw).
  - destruct (shift_unrecognized_direction four_samples (2 # 10) "sideways" sample_world)
      as [Hleft Hdraw]; [done..|].
    split; [exact Hleft|]. exact (proj2 (proj2 Hdraw)).
Defined.

(** ** Feature Extractor: fixed-shape sequences *)

Lemma tabulate_wf r c f : wf_ndarray2 (tabulate r c f).
Proof.
  split; simpl.
  - by rewrite length_map, length_seq.
  - apply Forall_map, Forall_forall. intros i _. simpl. by rewrite length_map, length_seq.
Qed.

Lemma tabulate_row r c f i :
  (i < r)%nat → cells (tabulate r c f) !! i = Some (map (f i) (seq 0 c)).
Proof.
  intros Hi. simpl. rewrite list_lookup_fmap, lookup_seq_lt by done. done.
Qed.

Lemma transpose_wf m : wf_ndarray2 m → wf_ndarray2 (transpose m).
Proof.
  intros [Hr Hc]. split; simpl.
  - by rewrite length_map, length_seq.
  - apply Forall_map, Forall_forall. intros j _. simpl. by rewrite length_map.
Qed.

Lemma transpose_item m i j row :
  (j < shape1 m)%nat → cells m !! i = Some row →
  item (transpose m) j i = Some (nth j row 0%Q).
Proof.
  intros Hj Hrow. unfold item. simpl.
  rewrite list_lookup_fmap, lookup_seq_lt by done. simpl.
  rewrite list_lookup_fmap, Hrow. done.
Qed.

Lemma np_pad_wf m pad : wf_ndarray2 m → wf_ndarray2 (np_pad m pad).
Proof.
  intros [Hr Hc]. split; simpl.
  - by rewrite length_map.
  - apply Forall_map. eapply Forall_impl; [exact Hc|].
    intros row Hrow. simpl in *. rewrite length_app, length_replicate. lia.
Qed.

Lemma slice_cols_wf m k : wf_ndarray2 m → wf_ndarray2 (slice_cols m k).
Proof.
  intros [Hr Hc]. split; simpl.
  - by rewrite length_map.
  - apply Forall_map. eapply Forall_impl; [exact Hc|].
    intros row Hrow. simpl in *. rewrite length_take, Hrow.
    unfold slice_stop. case_bool_decide; lia.
Qed.

Lemma pad_or_truncate_wf m max_len :
  wf_ndarray2 m → wf_ndarray2 (pad_or_truncate m max_len).
Proof.
  intros. unfold pad_or_truncate. case_bool_decide; auto using np_pad_wf, slice_cols_wf.
Qed.

Lemma pad_or_truncate_shape m max_len :
  0 ≤ max_len →
  shape0 (pad_or_truncate m max_len) = shape0 m ∧
  shape1 (pad_or_truncate m max_len) = Z.to_nat max_len.
Proof.
  intros Hpos. unfold pad_or_truncate. case_bool_decide; simpl; (split; [done|]); [lia|]. unfold slice_stop. rewrite bool_decide_eq_false_2 by lia. lia.
Qed.

(** Row [i] after padding or truncation: the first [max_len] entries of the
    row followed by zeros. *)
Lemma pad_or_truncate_row m max_len i row t :
  0 ≤ max_len → length row = shape1 m → cells m !! i = Some row →
  (t < Z.to_nat max_len)%nat →
  ∃ row', cells (pad_or_truncate m max_len) !! i = Some row' ∧
          nth t row' 0%Q = nth t row 0%Q.
Proof.
  intros Hpos Hlen Hrow Ht. unfold pad_or_truncate. case_bool_decide; simpl.
  - rewrite list_lookup_fmap, Hrow. simpl. eexists; split; [done|].
    destruct (decide (t < length row)%nat).
    + by rewrite app_nth1.
    + rewrite app_nth2, (nth_overflow row) by lia.
      rewrite nth_lookup. destruct (replicate _ _ !! _) eqn:E; [|done].
      by apply lookup_replicate in E as [-> _].
  - rewrite list_lookup_fmap, Hrow. simpl. eexists; split; [done|].
    unfold slice_stop. rewrite bool_decide_eq_false_2 by lia.
    rewrite !nth_lookup, lookup_take_lt by lia. done.
Qed.

Section ExtractSequence.
Context `{Librosa}.

Lemma librosa_mfcc_wf y sr n_mfcc : wf_ndarray2 (librosa_mfcc y sr n_mfcc).
Proof. apply tabulate_wf. Qed.

(** C1. For a readable clip and a target length [max_len],
    [extract_mfcc_sequence] returns, without touching the interpreter
    state, a well-formed array of shape exactly [(max_len, n_mfcc)],
    time-major: entry [(t, c)] is coefficient [c] of frame [t] for the
    frames the clip has among the first [max_len] (truncation when it has
    more), and zero for the frames it lacks (right-padding). *)
Theorem extract_mfcc_sequence_shape (file_path : string) (n_mfcc : nat)
    (max_len : Z) (w : World) (y : list Q) (sr : Z) :
  0 ≤ max_len →
  fs w !! file_path = Some (Audio y sr) →
  ∃ mfcc_seq,
    extract_mfcc_sequence file_path n_mfcc max_len w = (Ok mfcc_seq, w) ∧
    shape0 mfcc_seq = Z.to_nat max_len ∧
    shape1 mfcc_seq = n_mfcc ∧
    wf_ndarray2 mfcc_seq ∧
    ∀ t c, (t < Z.to_nat max_len)%nat → (c < n_mfcc)%nat →
      item mfcc_seq t c =
        Some (if decide (t < mfcc_frames y sr)%nat
              then mfcc_coef y sr n_mfcc c t else 0%Q).
Proof.
  intros Hpos Hfile.
  unfold extract_mfcc_sequence, bind, librosa_load, ret. rewrite Hfile.
  set (mfcc := librosa_mfcc y sr n_mfcc).
  destruct (pad_or_truncate_shape mfcc max_len Hpos) as [Hs0 Hs1].
  eexists. split; [reflexivity|]. split_and!.
  - simpl. exact Hs1.
  - simpl. rewrite Hs0. done.
  - apply transpose_wf, pad_or_truncate_wf, librosa_mfcc_wf.
  - intros t c Ht Hc.
    pose proof (tabulate_row n_mfcc (mfcc_frames y sr) (mfcc_coef y sr n_mfcc) c Hc)
      as Hrow.
    destruct (pad_or_truncate_row mfcc max_len c _ t Hpos
                ltac:(by rewrite length_map, length_seq) Hrow Ht)
      as (row' & Hrow' & Hnth).
    rewrite (transpose_item _ c t row') by (rewrite ?Hs1; done).
    f_equal. rewrite Hnth, nth_lookup, list_lookup_fmap.
    change (shape1 mfcc) with (mfcc_frames y sr).
    case_decide.
    + by rewrite lookup_seq_lt.
    + by rewrite lookup_seq_ge by lia.
Qed.
End ExtractSequence.

Lemma extract_mfcc_sequence_shape_witness :
  0 ≤ 5 ∧ fs sample_world !! angry_clip = Some (Audio ten_samples 22050) ∧
  ∃ mfcc_seq,
    @extract_mfcc_sequence sample_librosa angry_clip 2 5 sample_world
    = (Ok mfcc_seq, sample_world) ∧
    shape0 mfcc_seq = Z.to_nat 5 ∧
    shape1 mfcc_seq = 2%nat ∧
    wf_ndarray2 mfcc_seq ∧
    ∀ t c, (t < Z.to_nat 5)%nat → (c < 2)%nat →
      item mfcc_seq t c =
        Some (if decide (t < @mfcc_frames sample_librosa ten_samples 22050)%nat
              then @mfcc_coef sample_librosa ten_samples 22050 2 c t else 0%Q).
Proof.
  split; [lia|]. split; [by vm_compute|].
  apply (@extract_mfcc_sequence_shape sample_librosa angry_clip 2 5 sample_world
           ten_samples 22050); [lia|by vm_compute].
Defined.

(** ** Dataset Builder *)

Lemma observed_emotions_eq :
  observed_emotions =
    ["disgust"; "happy"; "angry"; "neutral"; "fearful"; "calm"; "sad"; "surprised"].
Proof. by vm_compute. Qed.

Lemma bind_Ok {S A B} (m : Py S A) (k : A → Py S B) s a s' :
  m s = (Ok a, s') → bind m k s = k a s'.
Proof. unfold bind. by intros ->. Qed.

Lemma bind_Raise {S A B} (m : Py S A) (k : A → Py S B) s e s' :
  m s = (Raise e, s') → bind m k s = (Raise e, s').
Proof. unfold bind. by intros ->. Qed.

(** Every value of the code table is an observed emotion, so the guard
    [emotion not in observed_emotions] only ever fires on [None]. *)
Lemma emotions_observed code emotion :
  emotions !! code = Some emotion → not_in (Some emotion) observed_emotions = false.
Proof.
  intros Hcode. unfold not_in, observed_emotions.
  rewrite bool_decide_eq_true_2; [done|].
  apply list_elem_of_fmap. exists (code, emotion). split; [done|].
  by apply elem_of_map_to_list.
Qed.



Lemma kept_labels_cons augment disk file files :
  kept_labels augment disk (file :: files) =
    match label_of file, disk !! file with
    | Some emotion, Some (Audio samples _) =>
        replicate (kept_examples augment samples) emotion
    | _, _ => []
    end ++ kept_labels augment disk files.
Proof. done. Qed.

(** [int(len(data) * 0.2)] is the fifth of the length, rounded down: the
    draw of [shift] is empty exactly below five samples. *)
Lemma shift_bound_fifth {A} (data : list A) :
  shift_bound data (2 # 10) = Z.of_nat (length data) `quot` 5.
Proof.
  unfold shift_bound, py_int. simpl.
  change (Z.pos (1 * 10)) with (5 * 2). by rewrite Z.quot_mul_cancel_r by lia.
Qed.

Lemma shift_bound_short {A} (data : list A) :
  (length data < 5)%nat ↔ shift_bound data (2 # 10) ≤ 0.
Proof.
  rewrite shift_bound_fifth. split.
  - intros Hlt. rewrite Z.quot_small by lia. done.
  - intros Hq. destruct (decide (length data < 5)%nat) as [|Hge]; [done|].
    assert (1 ≤ Z.of_nat (length data) `quot` 5); [|lia].
    apply Z.quot_le_lower_bound; lia.
Qed.


Section LoadDataDl.
Context `{Librosa}.

(** A file name with fewer than three hyphen-delimited tokens: the
    subscript [split("-")[2]] sits outside the [try] and its [IndexError]
    leaves the loop. *)
Lemma load_data_dl_body_malformed max_len augment file s :
  emotion_code_of file = None →
  load_data_dl_body max_len augment file s
  = (Raise (IndexError "list index out of range"), s).
Proof.
  unfold emotion_code_of. intros Hcode.
  unfold load_data_dl_body, bind, getitem. by rewrite Hcode.
Qed.

(** A code outside the table: [emotions.get] yields [None] and the clip
    is passed over in silence. *)
Lemma load_data_dl_body_unknown max_len augment file code s :
  emotion_code_of file = Some code → emotions !! code = None →
  load_data_dl_body max_len augment file s = (Ok (), s).
Proof.
  unfold emotion_code_of. intros Hcode Hnone.
  unfold load_data_dl_body, bind, getitem. rewrite Hcode. simpl.
  by rewrite Hnone.
Qed.

(** A clip of the table that does not decode: the failure of the first
    [librosa.load] is caught, one line naming the path is printed, and
    nothing is appended. *)
Lemma load_data_dl_body_unreadable max_len augment file emotion e w d :
  label_of file = Some emotion →
  load_failure file (fs w !! file) = Some e →
  load_data_dl_body max_len augment file (w, d)
  = (Ok (), ({| fs := fs w; np_random := np_random w;
                stdout := stdout w ++ ["Error processing " +:+ file +:+ ": " +:+ exn_str e] |},
             d)).
Proof.
  unfold label_of, emotion_code_of. intros Hlabel Hfail.
  destruct (split "-"%char (basename file) !! 2%nat) as [code|] eqn:Hcode; [|done].
  simpl in Hlabel.
  unfold load_data_dl_body, bind at 1, getitem. rewrite Hcode. simpl.
  rewrite Hlabel, (emotions_observed code emotion Hlabel).
  unfold try_except, bind, liftW, extract_mfcc_sequence, bind, librosa_load. simpl.
  destruct (fs w !! file) as [[samples sr|msg]|]; simpl in Hfail; simplify_eq; done.
Qed.

Lemma shift_frame {A} (data : list A) shift_max dir w :
  fs (shift data shift_max dir w).2 = fs w ∧
  stdout (shift data shift_max dir w).2 = stdout w.
Proof.
  unfold shift, bind, randint, ret.
  repeat (case_bool_decide || case_decide); simpl; done.
Qed.

(** A usable clip: its sequence is appended under its label and, with
    augmentation, so are the sequence of the noise-perturbed waveform and
    the sequence of a rotation of the waveform, under the same label. *)
Lemma load_data_dl_body_usable max_len augment file emotion samples sr w d :
  label_of file = Some emotion →
  fs w !! file = Some (Audio samples sr) →
  (augment = true → 1 ≤ shift_bound samples (2 # 10)) →
  ∃ k w',
    (- shift_bound samples (2 # 10) < k < shift_bound samples (2 # 10)
     ∨ augment = false) ∧
    load_data_dl_body max_len augment file (w, d)
    = (Ok (),
       (w', {| ds_x := ds_x d ++
                 sequence_of samples sr max_len ::
                 (if augment then
                    [sequence_of (noisy w samples (5 # 1000)) sr max_len;
                     sequence_of (np_roll samples k) sr max_len]
                  else []);
               ds_y := ds_y d ++ replicate (examples_per_clip augment) emotion |})) ∧
    fs w' = fs w ∧ stdout w' = stdout w.
Proof.
  unfold label_of, emotion_code_of. intros Hlabel Hfile Hlong.
  destruct (split "-"%char (basename file) !! 2%nat) as [code|] eqn:Hcode; [|done].
  simpl in Hlabel.
  unfold load_data_dl_body, bind at 1, getitem. rewrite Hcode. simpl.
  rewrite Hlabel, (emotions_observed code emotion Hlabel).
  unfold try_except, bind, liftW, extract_mfcc_sequence, bind, librosa_load,
    append, modify, add_noise, bind, randn, ret. simpl.
  rewrite Hfile. simpl.
  destruct augment; simpl.
  - rewrite Hfile. simpl.
    set (w1 := set_random _ w).
    destruct (shift_rotates samples (2 # 10) "both" w1 (Hlong eq_refl))
      as (k & w2 & Hk & Hshift).
    destruct (shift_frame samples (2 # 10) "both" w1) as [Hfs Hout].
    rewrite Hshift in Hfs, Hout |- *. simpl in *.
    exists k, w2. split_and!; [by left| |done..].
    by rewrite <- !app_assoc.
  - exists 0, w. split_and!; [by right|done..].
Qed.

(** A readable clip of the table that is too short for [shift], under
    augmentation: the original and the noisy sequence are appended, then
    the [ValueError] of the draw is caught and reported. *)
Lemma load_data_dl_body_short (max_len : Z) (file emotion : string)
    (samples : list Q) (sr : Z) (w : World) (d : Dataset ndarray2) :
  label_of file = Some emotion →
  fs w !! file = Some (Audio samples sr) →
  (length samples < 5)%nat →
  load_data_dl_body max_len true file (w, d)
  = (Ok (),
     ({| fs := fs w;
         np_random := skip_normals (length samples) (np_random w);
         stdout := stdout w ++ ["Error processing " +:+ file +:+ ": high <= 0"] |},
      {| ds_x := ds_x d ++ [sequence_of samples sr max_len;
                            sequence_of (noisy w samples (5 # 1000)) sr max_len];
         ds_y := ds_y d ++ [emotion; emotion] |})).
Proof.
  unfold label_of, emotion_code_of. intros Hlabel Hfile Hshort.
  destruct (split "-"%char (basename file) !! 2%nat) as [code|] eqn:Hcode; [|done].
  simpl in Hlabel.
  unfold load_data_dl_body, bind at 1, getitem. rewrite Hcode. simpl.
  rewrite Hlabel, (emotions_observed code emotion Hlabel).
  unfold try_except, bind, liftW, extract_mfcc_sequence, bind, librosa_load,
    append, modify, add_noise, bind, randn, ret. simpl.
  rewrite Hfile. simpl. rewrite Hfile. simpl.
  rewrite shift_empty_range by (by apply shift_bound_short).
  simpl. by rewrite <- !app_assoc.
Qed.

End LoadDataDl.




Section UnreadableClip.
Context `{Librosa}.

End UnreadableClip.



(** ** Dataset Builder, classical path *)

Lemma shift_normal_cursor {A} (data : list A) shift_max dir w :
  normal_cursor (np_random (shift data shift_max dir w).2) = normal_cursor (np_random w).
Proof.
  unfold shift, bind, randint, ret.
  repeat (case_bool_decide || case_decide); simpl; done.
Qed.

Section LoadData.
Context `{Librosa} `{Sklearn}.

Lemma extract_feature_audio file samples sr w :
  fs w !! file = Some (Audio samples sr) →
  extract_feature file true true true w = (Ok (pooled_feature samples sr), w).
Proof.
  intros Hfile. unfold extract_feature, bind, librosa_load, ret. rewrite Hfile.
  cbv beta iota zeta. unfold pooled_feature. by rewrite app_nil_l, <- app_assoc.
Qed.

Lemma load_data_body_malformed augment file s :
  emotion_code_of file = None →
  load_data_body augment file s = (Raise (IndexError "list index out of range"), s).
Proof.
  unfold emotion_code_of. intros Hcode.
  unfold load_data_body, bind, getitem. by rewrite Hcode.
Qed.

(** A code outside the table: the subscript [emotions[...]] raises
    before the guard on [observed_emotions] is reached. *)
Lemma load_data_body_unknown augment file code s :
  emotion_code_of file = Some code → emotions !! code = None →
  load_data_body augment file s = (Raise (KeyError code), s).
Proof.
  unfold emotion_code_of. intros Hcode Hnone.
  unfold load_data_body, bind, getitem, dict_getitem. rewrite Hcode. simpl.
  by rewrite Hnone.
Qed.


Lemma load_data_body_augment file emotion samples sr w d :
  label_of file = Some emotion →
  fs w !! file = Some (Audio samples sr) →
  1 ≤ shift_bound samples (2 # 10) →
  ∃ k w',
    - shift_bound samples (2 # 10) < k < shift_bound samples (2 # 10) ∧
    load_data_body true file (w, d)
    = (Ok (),
       (w', {| ds_x := ds_x d ++ [pooled_feature samples sr;
                                  pooled_feature samples sr;
                                  pooled_feature (np_roll samples k) sr];
               ds_y := ds_y d ++ [emotion; emotion; emotion] |})) ∧
    normal_cursor (np_random w') = normal_cursor (np_random w).
Proof.
  unfold label_of, emotion_code_of. intros Hlabel Hfile Hlong.
  destruct (split "-"%char (basename file) !! 2%nat) as [code|] eqn:Hcode; [|done].
  simpl in Hlabel.
  unfold load_data_body, bind at 1, getitem. rewrite Hcode. simpl.
  unfold bind at 1, dict_getitem. rewrite Hlabel. simpl.
  pose proof (emotions_observed code emotion Hlabel) as Hobs.
  unfold not_in in Hobs. rewrite Hobs.
  destruct (shift_rotates samples (2 # 10) "both" w Hlong) as (k & w2 & Hk & Hshift).
  destruct (shift_frame samples (2 # 10) "both" w) as [Hfs Hout].
  pose proof (shift_normal_cursor samples (2 # 10) "both" w) as Hcur.
  rewrite Hshift in Hfs, Hout, Hcur. simpl in Hfs, Hout, Hcur.
  exists k. eexists. split; [done|].
  unfold bind, liftW, append, modify. simpl.
  rewrite (extract_feature_audio _ _ _ _ Hfile). simpl.
  unfold librosa_load at 1. rewrite Hfile. simpl.
  rewrite (extract_feature_audio _ _ _ _ Hfile). simpl.
  rewrite Hshift. simpl.
  unfold write_wav, modify. simpl.
  rewrite (extract_feature_audio "temp_shift.wav" (np_roll samples k) sr)
    by (simpl; apply lookup_insert_eq).
  simpl. unfold os_remove. simpl. rewrite lookup_insert_eq. simpl.
  rewrite <- !app_assoc. simpl. split; [reflexivity|]. simpl. done.
Qed.

(** C2. In [load_data] the feature appended under the comment
    "Add noise" is extracted from the clip's own file: for a usable clip
    the augmented loop appends the clip's feature twice and then the
    feature of a rotation of the clip, all under the clip's label, and the
    stream of normal samples that [add_noise] would draw from is left
    where it was. The claim's noise-perturbed variant is missing on this
    path. *)
Theorem load_data_noise_feature_is_unperturbed (file emotion : string)
    (samples : list Q) (sr : Z) (w : World) (d : Dataset (list Q)) :
  label_of file = Some emotion →
  fs w !! file = Some (Audio samples sr) →
  1 ≤ shift_bound samples (2 # 10) →
  ∃ k w',
    extract_feature file true true true w = (Ok (pooled_feature samples sr), w) ∧
    load_data_body true file (w, d)
    = (Ok (),
       (w', {| ds_x := ds_x d ++ [pooled_feature samples sr;
                                  pooled_feature samples sr;
                                  pooled_feature (np_roll samples k) sr];
               ds_y := ds_y d ++ [emotion; emotion; emotion] |})) ∧
    normal_cursor (np_random w') = normal_cursor (np_random w).
Proof.
  intros Hlab Hfile Hlong.
  destruct (load_data_body_augment file emotion samples sr w d Hlab Hfile Hlong)
    as (k & w' & _ & Hbody & Hcur).
  exists k, w'. split_and!; [by apply extract_feature_audio|done..].
Qed.

(** C3. A clip whose name has fewer than three hyphen-delimited tokens
    ends both loaders with the [IndexError] of [split("-")[2]], and a
    clip whose code is outside the table ends [load_data] with the
    [KeyError] of [emotions[...]]: the exception leaves the loop in the
    state it was reached in, and the clips after it are never looked
    at. *)
Theorem malformed_or_unknown_name_aborts :
  (∀ max_len augment file rest s,
     emotion_code_of file = None →
     load_data_dl_files max_len augment (file :: rest) s
     = (Raise (IndexError "list index out of range"), s)) ∧
  (∀ augment file rest s,
     emotion_code_of file = None →
     load_data_files augment (file :: rest) s
     = (Raise (IndexError "list index out of range"), s)) ∧
  (∀ augment file rest code s,
     emotion_code_of file = Some code → emotions !! code = None →
     load_data_files augment (file :: rest) s = (Raise (KeyError code), s)).
Proof.
  split_and!.
  - intros max_len augment file rest s Hcode.
    apply bind_Raise. by apply load_data_dl_body_malformed.
  - intros augment file rest s Hcode.
    apply bind_Raise. by apply load_data_body_malformed.
  - intros augment file rest code s Hcode Hnone.
    apply bind_Raise. by apply load_data_body_unknown.
Qed.
End LoadData.

Lemma load_data_noise_feature_is_unperturbed_witness :
  ∃ k w',
    @extract_feature sample_librosa angry_clip true true true sample_world
    = (Ok (@pooled_feature sample_librosa ten_samples 22050), sample_world) ∧
    @load_data_body sample_librosa true angry_clip (sample_world, empty_dataset)
    = (Ok (),
       (w', {| ds_x := ds_x (@empty_dataset (list Q))
                 ++ [@pooled_feature sample_librosa ten_samples 22050;
                     @pooled_feature sample_librosa ten_samples 22050;
                     @pooled_feature sample_librosa (np_roll ten_samples k) 22050];
               ds_y := ds_y (@empty_dataset (list Q)) ++ ["angry"; "angry"; "angry"] |})) ∧
    normal_cursor (np_random w') = normal_cursor (np_random sample_world).
Proof.
  apply (@load_data_noise_feature_is_unperturbed sample_librosa angry_clip "angry"
           ten_samples 22050 sample_world empty_dataset); by vm_compute.
Defined.

Lemma malformed_or_unknown_name_aborts_witness :
  @load_data_dl_files sample_librosa 200 true [stray_clip; angry_clip]
    (sample_world, empty_dataset)
  = (Raise (IndexError "list index out of range"), (sample_world, empty_dataset)) ∧
  @load_data_files sample_librosa false [stray_clip; angry_clip]
    (sample_world, empty_dataset)
  = (Raise (IndexError "list index out of range"), (sample_world, empty_dataset)) ∧
  @load_data_files sample_librosa false [unknown_code_clip; angry_clip]
    (sample_world, empty_dataset)
  = (Raise (KeyError "09"), (sample_world, empty_dataset)).
Proof.
  destruct (@malformed_or_unknown_name_aborts sample_librosa) as (Hdl & Hidx & Hkey).
  split_and!.
  - apply Hdl. by vm_compute.
  - apply Hidx. by vm_compute.
  - apply Hkey; by vm_compute.
Defined.

(** ** The split of the classical path *)

Section LoadDataSplit.
Context `{Librosa} `{Sklearn}.

(** The first two positions of a shuffle of ten: distinct and in range. *)
Lemma shuffle_head (seed : Z) :
  ∃ p0 p1 rest, permutation seed 10 = p0 :: p1 :: rest ∧
                (p0 < 10)%nat ∧ (p1 < 10)%nat ∧ p0 ≠ p1.
Proof.
  pose proof (permutation_perm seed 10) as Hperm.
  assert (Hlen : length (permutation seed 10) = 10%nat)
    by (by rewrite Hperm, length_seq).
  assert (Hnd : NoDup (permutation seed 10)) by (rewrite Hperm; apply NoDup_seq).
  assert (Hin : ∀ p, p ∈ permutation seed 10 → (p < 10)%nat).
  { intros p Hp. rewrite Hperm in Hp. apply elem_of_seq in Hp. lia. }
  destruct (permutation seed 10) as [|p0 [|p1 rest]]; [done..|].
  exists p0, p1, rest. split_and!; [done|apply Hin; set_solver..|].
  apply NoDup_cons in Hnd as [Hnin _]. set_solver.
Qed.

(** C5. [load_data] calls [train_test_split] with the seed 9 and without
    [stratify]: the test partition is the head of a shuffle of the
    positions, which never looks at the labels. Whatever that shuffle is,
    there is a corpus of ten clips, five happy and five sad, of which
    [load_data(test_size=0.2)] puts two happy clips and no sad one into
    the test partition: half of the dataset is happy, all of the test
    partition is. The class proportions of the claim are not preserved
    on this path. *)
Theorem load_data_split_not_stratified :
  ∃ files : list string,
    length files = 10%nat ∧
    count_label "happy" (ds_y (load_data_files false files
                                 (balanced_world, empty_dataset)).2.2) = 5%nat ∧
    count_label "sad" (ds_y (load_data_files false files
                               (balanced_world, empty_dataset)).2.2) = 5%nat ∧
    y_test_of (load_data (2 # 10) false files (balanced_world, empty_dataset)).1
    = Some ["happy"; "happy"].
Proof.
  destruct (shuffle_head 9) as (p0 & p1 & rest & Hperm & Hp0 & Hp1 & Hne).
  exists (lopsided_corpus p0 p1).
  unfold load_data, train_test_split, bind, modify, get, ret, raise.
  remember (permutation 9) as shuffle eqn:Hshuffle. clear Hshuffle.
  destruct p0 as [|[|[|[|[|[|[|[|[|[|p0]]]]]]]]]]; [..|lia];
    (destruct p1 as [|[|[|[|[|[|[|[|[|[|p1]]]]]]]]]]; [..|lia]); try done.
  all: vm_compute; rewrite Hperm; vm_compute; done.
Qed.
End LoadDataSplit.

(** The run recorded in the first notebook shows the same: [load_data]
    put 17% of the happy clips and more than 21% of the fearful ones into
    its test partition of 20%, where the stratified split of the
    deep-learning path stays within a fifth of a percentage point for
    every class. *)
Example recorded_split_is_not_proportional :
  (test_share recorded_test_support "happy" < 171 # 1000)%Q ∧
  (212 # 1000 < test_share recorded_test_support "fearful")%Q ∧
  Forall (λ label, (198 # 1000 < test_share recorded_test_support_dl label < 204 # 1000)%Q)
         observed_emotions.
Proof.
  split_and!; [by vm_compute..|].
  rewrite observed_emotions_eq. repeat constructor; by vm_compute.
Qed.

(** ** Class-Imbalance Corrector *)


Lemma elem_of_np_unique y c : c ∈ np_unique y ↔ c ∈ y.
Proof.
  unfold np_unique. rewrite merge_sort_Permutation. apply elem_of_remove_dups.
Qed.

Lemma bincount_pos y c : (0 < bincount y c)%nat ↔ c ∈ y.
Proof.
  unfold bincount. split.
  - intros Hpos. destruct (filter (λ v, v = c) y) as [|v l] eqn:E; [simpl in Hpos; lia|].
    assert (Hv : v ∈ filter (λ v, v = c) y) by (rewrite E; left).
    apply list_elem_of_filter in Hv as [-> ?]. done.
  - intros Hin.
    assert (Hc : c ∈ filter (λ v, v = c) y) by (by apply list_elem_of_filter).
    destruct (filter (λ v, v = c) y); [by apply elem_of_nil in Hc|simpl; lia].
Qed.




(** The dictionary of the class-weight cell on labels that are not
    empty, written out. *)
Lemma class_weight_dict_eq (y : list nat) :
  y ≠ [] →
  class_weight_dict y
  = Ok (map_seq 0 (map (balanced_weight (length y) (length (np_unique y)) ∘ bincount y)
                       (np_unique y))).
Proof.
  intros Hne. unfold class_weight_dict, compute_class_weight.
  rewrite bool_decide_eq_false_2 by done.
  rewrite bool_decide_eq_true_2; [done|].
  apply Forall_forall. intros c Hc. by apply elem_of_np_unique.
Qed.





(** ** Predictor *)

(** The running maximum of [np.argmax]: the position returned holds a
    value that no entry exceeds. *)
Lemma argmax_from_spec l best_i best i :
  (best_i < i)%nat →
  let r := argmax_from best_i best i l in
  let val := if decide (r = best_i) then best else nth (r - i) l 0%Q in
  (r = best_i ∨ (i ≤ r < i + length l)%nat) ∧
  (best <= val)%Q ∧ Forall (λ v, v <= val)%Q l.
Proof.
  revert best_i best i. induction l as [|v l IH]; intros best_i best i Hlt; simpl.
  { rewrite decide_True by done. split_and!; [by left|apply Qle_refl|constructor]. }
  destruct (Qlt_le_dec best v) as [Hbv|Hvb].
  - destruct (IH i v (S i) ltac:(lia)) as (Hr & Hv & Hall).
    set (r := argmax_from i v (S i) l) in *.
    assert (Hne : r ≠ best_i) by lia. rewrite decide_False by done.
    assert (Hval : (if decide (r = i) then v else nth (r - S i) l 0%Q)
                   = match (r - i)%nat with O => v | S m => nth m l 0%Q end).
    { case_decide as Hri.
      - subst r. by rewrite Hri, Nat.sub_diag.
      - replace (r - i)%nat with (S (r - S i)) by lia. done. }
    rewrite <- Hval. split_and!.
    + right. lia.
    + eapply Qle_trans; [apply Qlt_le_weak, Hbv|done].
    + constructor; done.
  - destruct (IH best_i best (S i) ltac:(lia)) as (Hr & Hv & Hall).
    set (r := argmax_from best_i best (S i) l) in *.
    assert (Hval : (if decide (r = best_i) then best else nth (r - S i) l 0%Q)
                   = (if decide (r = best_i) then best
                      else match (r - i)%nat with O => v | S m => nth m l 0%Q end)).
    { case_decide; [done|]. replace (r - i)%nat with (S (r - S i)) by lia. done. }
    rewrite <- Hval. split_and!.
    + destruct Hr; [by left|right; lia].
    + done.
    + constructor; [by eapply Qle_trans|done].
Qed.

Lemma np_argmax_spec {St} (a : list Q) (s : St) :
  a ≠ [] →
  ∃ i top, np_argmax a s = (Ok i, s) ∧ a !! i = Some top ∧ Forall (λ v, v <= top)%Q a.
Proof.
  destruct a as [|v a]; [done|]. intros _. unfold np_argmax, ret.
  destruct (argmax_from_spec a 0 v 1 ltac:(lia)) as (Hr & Hv & Hall).
  set (r := argmax_from 0 v 1 a) in *.
  exists r, (if decide (r = 0%nat) then v else nth (r - 1) a 0%Q).
  split; [done|]. case_decide as Hr0.
  - rewrite Hr0. simpl. split; [done|]. constructor; [apply Qle_refl|done].
  - destruct Hr as [?|Hr]; [done|].
    replace r with (S (r - 1))%nat at 1 by lia. simpl.
    split; [|by constructor].
    rewrite nth_lookup. destruct (a !! (r - 1)%nat) eqn:E; [done|].
    apply lookup_ge_None in E. lia.
Qed.

Lemma label_of_observed file emotion :
  label_of file = Some emotion → emotion ∈ observed_emotions.
Proof.
  unfold label_of. destruct (emotion_code_of file) as [code|]; [|done]. simpl.
  intros Hlabel. apply emotions_observed in Hlabel. unfold not_in in Hlabel.
  apply negb_false_iff in Hlabel. by apply bool_decide_eq_true_1 in Hlabel.
Qed.

Lemma kept_labels_observed augment disk files :
  Forall (λ label, label ∈ observed_emotions) (kept_labels augment disk files).
Proof.
  induction files as [|file files IH]; [constructor|].
  rewrite kept_labels_cons. apply Forall_app. split; [|done].
  destruct (label_of file) as [emotion|] eqn:Hlabel; [|constructor].
  destruct (disk !! file) as [[samples sr|]|]; try constructor.
  apply Forall_replicate. by eapply label_of_observed.
Qed.

Lemma LabelEncoder_fit_classes y label :
  label ∈ classes_ (LabelEncoder_fit y) ↔ label ∈ y.
Proof.
  unfold LabelEncoder_fit. simpl. rewrite merge_sort_Permutation.
  apply elem_of_remove_dups.
Qed.

(** The encoder that the deep-learning path fits on the labels it has
    kept knows nothing but emotions of the table. *)
Lemma fitted_on_kept_labels augment disk files :
  Forall (λ label, label ∈ observed_emotions)
         (classes_ (LabelEncoder_fit (kept_labels augment disk files))).
Proof.
  apply Forall_forall. intros label Hin.
  rewrite LabelEncoder_fit_classes in Hin.
  pose proof (kept_labels_observed augment disk files) as Hall.
  rewrite Forall_forall in Hall. exact (Hall label Hin).
Qed.

Section PredictEmotion.
Context `{Librosa}.

(** C9 (amended). For a readable clip, a model whose inference on the
    one-clip batch of the clip's MFCC sequence returns one score per class
    of the encoder, and an encoder fitted on labels of the emotion table,
    [predict_emotion] returns [le.classes_[i]] where [i] is the arg-max of
    the scores: whatever they are, the answer is one of the eight emotion
    names (there is no threshold and no fallback). [predict_emotion] has
    no effect of its own: the interpreter state after the call is the
    state [model.predict] leaves, which Keras extends by a progress line
    on standard output. *)
Theorem predict_emotion_decodes_argmax (file_path : string) (model : KerasModel)
    (le : LabelEncoder) (max_len : Z) (w w' : World) (y : list Q) (sr : Z)
    (pred : list (list Q)) :
  fs w !! file_path = Some (Audio y sr) →
  classes_ le ≠ [] →
  Forall (λ label, label ∈ observed_emotions) (classes_ le) →
  predict model [sequence_of y sr max_len] w = (Ok pred, w') →
  length (concat pred) = length (classes_ le) →
  ∃ i top label,
    extract_mfcc_sequence file_path 40 max_len w = (Ok (sequence_of y sr max_len), w) ∧
    concat pred !! i = Some top ∧
    Forall (λ v, v <= top)%Q (concat pred) ∧
    classes_ le !! i = Some label ∧
    predict_emotion file_path model le max_len w = (Ok label, w') ∧
    label ∈ ["neutral"; "calm"; "happy"; "sad"; "angry"; "fearful"; "disgust";
             "surprised"].
Proof.
  intros Hfile Hne Hcls Hrun Hout.
  unfold predict_emotion, extract_mfcc_sequence, bind, librosa_load, ret.
  rewrite Hfile. fold (sequence_of y sr max_len). rewrite Hrun.
  assert (Hpred : concat pred ≠ []).
  { intros Hnil. rewrite Hnil in Hout.
    destruct (classes_ le); [done|simpl in Hout; lia]. }
  destruct (np_argmax_spec (concat pred) w' Hpred) as (i & top & Harg & Hi & Hmax).
  rewrite Harg.
  assert (is_Some (classes_ le !! i)) as [label Hlabel].
  { apply lookup_lt_is_Some. rewrite <- Hout. by eapply lookup_lt_Some. }
  exists i, top, label. split_and!; try done.
  - unfold getitem. by rewrite Hlabel.
  - rewrite Forall_forall in Hcls.
    assert (Hin : label ∈ observed_emotions)
      by (apply Hcls; by eapply list_elem_of_lookup_2).
    rewrite observed_emotions_eq in Hin.
    rewrite !elem_of_cons, elem_of_nil in Hin. rewrite !elem_of_cons. tauto.
Qed.
End PredictEmotion.

Lemma predict_emotion_decodes_argmax_witness :
  ∃ i top label,
    @extract_mfcc_sequence sample_librosa angry_clip 40 200 sample_world
    = (Ok (@sequence_of sample_librosa ten_samples 22050 200), sample_world) ∧
    concat predicted_scores !! i = Some top ∧
    Forall (λ v, v <= top)%Q (concat predicted_scores) ∧
    classes_ sample_encoder !! i = Some label ∧
    @predict_emotion sample_librosa angry_clip sample_model sample_encoder 200 sample_world
    = (Ok label, after_prediction) ∧
    label ∈ ["neutral"; "calm"; "happy"; "sad"; "angry"; "fearful"; "disgust";
             "surprised"].
Proof.
  apply (@predict_emotion_decodes_argmax sample_librosa angry_clip sample_model
           sample_encoder 200 sample_world after_prediction ten_samples 22050
           predicted_scores).
  - by vm_compute.
  - done.
  - rewrite observed_emotions_eq. simpl.
    repeat constructor; rewrite !elem_of_cons; tauto.
  - reflexivity.
  - reflexivity.
Defined.

(** C9, as stated. The state is not unchanged: after a prediction the
    standard output holds the progress line of [model.predict]. *)
Lemma predict_emotion_prints_progress :
  ∃ label,
    @predict_emotion sample_librosa angry_clip sample_model sample_encoder 200 sample_world
    = (Ok label, after_prediction) ∧
    stdout sample_world = [] ∧
    stdout after_prediction = [sample_progress] ∧
    after_prediction ≠ sample_world.
Proof.
  eexists. split_and!; [by vm_compute|done|done|].
  intros Heq. apply (f_equal stdout) in Heq. done.
Qed.

(** * Further properties of the code *)

(** ** File names *)

Lemma has_char_app c s1 s2 :
  has_char c (s1 +:+ s2) = has_char c s1 || has_char c s2.
Proof.
  induction s1 as [|c' s1 IH]; simpl; [done|]. rewrite IH. by rewrite orb_assoc.
Qed.

Lemma split_sep_free sep s : has_char sep s = false → split sep s = [s].
Proof.
  induction s as [|c s IH]; simpl; [done|].
  intros Hfree. apply orb_false_iff in Hfree as [Hc Hs].
  apply bool_decide_eq_false_1 in Hc. rewrite decide_False by done.
  by rewrite IH.
Qed.

(** A token that holds no separator is split off whole. *)
Lemma split_token sep tok rest :
  has_char sep tok = false →
  split sep (tok +:+ String sep rest) = tok :: split sep rest.
Proof.
  induction tok as [|c tok IH]; simpl.
  { intros _. by rewrite decide_True. }
  intros Hfree. apply orb_false_iff in Hfree as [Hc Htok].
  apply bool_decide_eq_false_1 in Hc. rewrite decide_False by done.
  by rewrite IH.
Qed.

(** Whatever precedes the last separator, the last token is what follows it. *)
Lemma split_last sep s name :
  has_char sep name = false →
  ∃ tok toks, split sep (s +:+ String sep name) = (tok :: toks) ++ [name].
Proof.
  intros Hfree. induction s as [|c s (tok & toks & IH)]; simpl.
  - rewrite decide_True by done. exists "", []. by rewrite split_sep_free.
  - case_decide.
    + exists "", (tok :: toks). by rewrite IH.
    + rewrite IH. simpl. by exists (String c tok), toks.
Qed.

Lemma basename_dir dir name :
  has_char "/" name = false → basename (dir +:+ "/" +:+ name) = name.
Proof.
  intros Hfree. unfold basename.
  destruct (split_last "/" dir name Hfree) as (tok & toks & Heq).
  change (dir +:+ "/" +:+ name) with (dir +:+ String "/" name).
  rewrite Heq. apply List.last_last.
Qed.

(** X1. The emotion code of a recording is the third dash-separated token
    of its base name: whatever the directory, and whether or not further
    tokens follow, a name [a-b-c...] has code [c]; a base name of fewer
    than three tokens has none (the subscript [[2]] raises). *)
Theorem emotion_code_is_third_token (dir a b c rest : string) :
  has_char "-" a = false → has_char "-" b = false → has_char "-" c = false →
  has_char "/" a = false → has_char "/" b = false → has_char "/" c = false →
  has_char "/" rest = false →
  emotion_code_of (dir +:+ "/" +:+ a +:+ "-" +:+ b +:+ "-" +:+ c +:+ "-" +:+ rest) = Some c ∧
  emotion_code_of (dir +:+ "/" +:+ a +:+ "-" +:+ b +:+ "-" +:+ c) = Some c ∧
  emotion_code_of (dir +:+ "/" +:+ a +:+ "-" +:+ b) = None.
Proof.
  intros Ha Hb Hc Ha' Hb' Hc' Hrest. unfold emotion_code_of. split_and!.
  - rewrite basename_dir.
    + change (a +:+ "-" +:+ b +:+ "-" +:+ c +:+ "-" +:+ rest)
        with (a +:+ String "-" (b +:+ String "-" (c +:+ String "-" rest))).
      rewrite !split_token by done. done.
    + rewrite !has_char_app. simpl. by rewrite Ha', Hb', Hc', Hrest.
  - rewrite basename_dir.
    + change (a +:+ "-" +:+ b +:+ "-" +:+ c) with (a +:+ String "-" (b +:+ String "-" c)).
      rewrite !split_token, split_sep_free by done. done.
    + rewrite !has_char_app. simpl. by rewrite Ha', Hb', Hc'.
  - rewrite basename_dir.
    + change (a +:+ "-" +:+ b) with (a +:+ String "-" b).
      rewrite !split_token, split_sep_free by done. done.
    + rewrite !has_char_app. simpl. by rewrite Ha', Hb'.
Qed.

Lemma emotion_code_is_third_token_witness :
  emotion_code_of ("Actor_01" +:+ "/" +:+ "03" +:+ "-" +:+ "01" +:+ "-" +:+ "05"
                   +:+ "-" +:+ "01-01-01-01.wav") = Some "05" ∧
  emotion_code_of ("Actor_01" +:+ "/" +:+ "03" +:+ "-" +:+ "01" +:+ "-" +:+ "05")
  = Some "05" ∧
  emotion_code_of ("Actor_01" +:+ "/" +:+ "03" +:+ "-" +:+ "01") = None.
Proof.
  apply (emotion_code_is_third_token "Actor_01" "03" "01" "05" "01-01-01-01.wav");
    reflexivity.
Defined.

(** ** Augmentor: [add_noise] *)

(** What [add_noise] hands back, sample by sample. *)
Lemma add_noise_lookup (data : list Q) (noise_factor : Q) (r : RandomState) (i : nat) :
  zip_with (λ d z, d + noise_factor * z)%Q data
    (map (λ i, rand_normals r (normal_cursor r + i)%nat) (seq 0 (length data))) !! i
  = (λ d, d + noise_factor * rand_normals r (normal_cursor r + i)%nat)%Q <$> data !! i.
Proof.
  rewrite lookup_zip_with. destruct (data !! i) as [d|] eqn:Hd; [|done]. simpl.
  rewrite list_lookup_fmap, lookup_seq_lt by (by eapply lookup_lt_Some). done.
Qed.

(** X3. With a noise factor of zero [add_noise] returns the waveform it
    was given, sample for sample. *)
Theorem add_noise_zero_factor (data : list Q) (noise_factor : Q) (w : World) :
  (noise_factor == 0)%Q →
  ∃ out, (add_noise data noise_factor w).1 = Ok out ∧ Forall2 Qeq out data.
Proof.
  intros Hzero. eexists. split; [reflexivity|].
  apply Forall2_same_length_lookup. split.
  - rewrite length_zip_with, length_map, length_seq. lia.
  - intros i o d Ho Hd. rewrite add_noise_lookup, Hd in Ho. injection Ho as <-.
    rewrite Hzero. ring.
Qed.

(** ** Augmentor: the direction of [shift] *)

Lemma np_roll_lookup {A} (a : list A) (k : Z) (i : nat) :
  (i < length a)%nat →
  np_roll a k !! i = a !! Z.to_nat ((Z.of_nat i - k) `mod` Z.of_nat (length a)).
Proof.
  intros Hi. unfold np_roll. rewrite decide_False by lia.
  set (n := length a) in *.
  assert (Hn : 0 < Z.of_nat n) by lia.
  pose proof (Z.mod_pos_bound k (Z.of_nat n) Hn) as Hoff.
  set (off := k `mod` Z.of_nat n) in *.
  rewrite <- (Zminus_mod_idemp_r (Z.of_nat i) k). fold off.
  destruct (decide (Z.of_nat i < off)) as [Hlt|Hge].
  - rewrite lookup_app_l by (rewrite length_drop; fold n; lia).
    rewrite lookup_drop. f_equal.
    assert ((Z.of_nat i - off) `mod` Z.of_nat n = Z.of_nat i - off + Z.of_nat n) as ->
      by (symmetry; apply (Z.mod_unique_pos _ _ (-1)); lia).
    lia.
  - rewrite lookup_app_r by (rewrite length_drop; fold n; lia).
    rewrite length_drop. fold n.
    rewrite Z.mod_small by lia.
    rewrite lookup_take_lt by lia. f_equal. lia.
Qed.

Lemma np_roll_add {A} (a : list A) (j k : Z) :
  np_roll (np_roll a j) k = np_roll a (j + k).
Proof.
  apply list_eq_same_length with (length a); rewrite ?np_roll_length; [done..|].
  intros i x y Hi. rewrite !np_roll_lookup by (rewrite ?np_roll_length; done).
  rewrite np_roll_length.
  assert (Hn : 0 < Z.of_nat (length a)) by lia.
  pose proof (Z.mod_pos_bound (Z.of_nat i - k) _ Hn).
  rewrite np_roll_lookup by lia.
  rewrite Z2Nat.id by lia.
  rewrite Zminus_mod_idemp_l.
  replace (Z.of_nat i - k - j) with (Z.of_nat i - (j + k)) by lia.
  rewrite (np_roll_lookup a (j + k)) by done. congruence.
Qed.

Lemma shift_Ok_roll {A} (data : list A) shift_max dir w out w' :
  shift data shift_max dir w = (Ok out, w') →
  ∃ k, - shift_bound data shift_max < k < shift_bound data shift_max ∧
       out = np_roll data k.
Proof.
  intros Hout.
  destruct (decide (1 ≤ shift_bound data shift_max)) as [Hb|Hb].
  - destruct (shift_rotates data shift_max dir w Hb) as (k & w'' & Hk & Heq).
    rewrite Heq in Hout. injection Hout as <- _. by exists k.
  - rewrite shift_empty_range in Hout by lia. done.
Qed.

(** X4. The direction of [shift], read off the draw: when
    [np.random.randint] returns the magnitude [k], ['right'] negates it
    before [np.roll], so that sample [i] of the result is sample [i + k]
    of the input (the content moves towards the start); ['left'] rotates
    by [k] itself, sample [i] being sample [i - k] of the input (the
    content moves towards the end); and ['both'] does the one or the
    other as its second draw is 1 or 0. Indices wrap around the length. *)
Theorem shift_direction_moves_samples {A} (data : list A) (shift_max : Q)
    (w w1 : World) (k : Z) :
  randint 0 (shift_bound data shift_max) w = (Ok k, w1) →
  shift data shift_max "right" w = (Ok (np_roll data (- k)), w1) ∧
  shift data shift_max "left" w = (Ok (np_roll data k), w1) ∧
  (∀ direction w2,
     randint 0 2 w1 = (Ok direction, w2) →
     shift data shift_max "both" w
     = (Ok (np_roll data (if decide (direction = 1) then - k else k)), w2)) ∧
  ∀ i, (i < length data)%nat →
    np_roll data (- k) !! i
    = data !! Z.to_nat ((Z.of_nat i + k) `mod` Z.of_nat (length data)) ∧
    np_roll data k !! i
    = data !! Z.to_nat ((Z.of_nat i - k) `mod` Z.of_nat (length data)).
Proof.
  intros Hdraw. split_and!.
  - unfold shift, bind. fold (shift_bound data shift_max). by rewrite Hdraw.
  - unfold shift, bind. fold (shift_bound data shift_max). by rewrite Hdraw.
  - intros direction w2 Hdir.
    unfold shift, bind. fold (shift_bound data shift_max). rewrite Hdraw.
    cbv beta iota. rewrite decide_False by done. rewrite decide_True by done.
    rewrite Hdir. by case_decide.
  - intros i Hi. rewrite !np_roll_lookup by done. split; [|done].
    do 3 f_equal. lia.
Qed.

(** X6. Shifting twice is shifting once: if two calls of [shift] in a row
    return, the second result is the original waveform rotated by the sum
    of the two signed shifts, which stays below the sum of the two bounds,
    and it is a rearrangement of the original samples. *)
Theorem shifts_compose {A} (data d1 d2 : list A) (max1 max2 : Q) (dir1 dir2 : string)
    (w w1 w2 : World) :
  shift data max1 dir1 w = (Ok d1, w1) →
  shift d1 max2 dir2 w1 = (Ok d2, w2) →
  ∃ k, - (shift_bound data max1 + shift_bound data max2) < k
         < shift_bound data max1 + shift_bound data max2 ∧
       d2 = np_roll data k ∧ d2 ≡ₚ data.
Proof.
  intros H1 H2.
  apply shift_Ok_roll in H1 as (k1 & Hk1 & ->).
  apply shift_Ok_roll in H2 as (k2 & Hk2 & ->).
  unfold shift_bound in Hk2. rewrite np_roll_length in Hk2.
  fold (shift_bound data max2) in Hk2.
  exists (k1 + k2). split_and!; [lia|lia|apply np_roll_add|].
  by rewrite !np_roll_Permutation.
Qed.

Lemma add_noise_zero_factor_witness :
  ∃ out, (add_noise four_samples 0 sample_world).1 = Ok out ∧ Forall2 Qeq out four_samples.
Proof. apply (add_noise_zero_factor four_samples 0 sample_world). reflexivity. Defined.

Lemma shift_direction_moves_samples_witness :
  randint 0 (shift_bound ten_samples (2 # 10)) sample_world = (Ok 1, after_ints 1) ∧
  shift ten_samples (2 # 10) "right" sample_world
  = (Ok (np_roll ten_samples (- 1)), after_ints 1) ∧
  shift ten_samples (2 # 10) "left" sample_world
  = (Ok (np_roll ten_samples 1), after_ints 1) ∧
  (∀ direction w2,
     randint 0 2 (after_ints 1) = (Ok direction, w2) →
     shift ten_samples (2 # 10) "both" sample_world
     = (Ok (np_roll ten_samples (if decide (direction = 1) then - 1 else 1)), w2)) ∧
  ∀ i, (i < length ten_samples)%nat →
    np_roll ten_samples (- 1) !! i
    = ten_samples !! Z.to_nat ((Z.of_nat i + 1) `mod` Z.of_nat (length ten_samples)) ∧
    np_roll ten_samples 1 !! i
    = ten_samples !! Z.to_nat ((Z.of_nat i - 1) `mod` Z.of_nat (length ten_samples)).
Proof.
  assert (Hdraw : randint 0 (shift_bound ten_samples (2 # 10)) sample_world
                  = (Ok 1, after_ints 1)) by reflexivity.
  split; [exact Hdraw|].
  exact (shift_direction_moves_samples ten_samples (2 # 10) sample_world (after_ints 1) 1
           Hdraw).
Defined.

Lemma shifts_compose_witness :
  shift ten_samples (2 # 10) "both" sample_world
  = (Ok (np_roll ten_samples 1), after_ints 2) ∧
  shift (np_roll ten_samples 1) (2 # 10) "left" (after_ints 2)
  = (Ok (np_roll ten_samples 2), after_ints 3) ∧
  ∃ k, - (shift_bound ten_samples (2 # 10) + shift_bound ten_samples (2 # 10)) < k
         < shift_bound ten_samples (2 # 10) + shift_bound ten_samples (2 # 10) ∧
       np_roll ten_samples 2 = np_roll ten_samples k ∧
       np_roll ten_samples 2 ≡ₚ ten_samples.
Proof.
  assert (H1 : shift ten_samples (2 # 10) "both" sample_world
               = (Ok (np_roll ten_samples 1), after_ints 2)) by reflexivity.
  assert (H2 : shift (np_roll ten_samples 1) (2 # 10) "left" (after_ints 2)
               = (Ok (np_roll ten_samples 2), after_ints 3)) by reflexivity.
  split; [exact H1|]. split; [exact H2|].
  exact (shifts_compose ten_samples (np_roll ten_samples 1) (np_roll ten_samples 2)
           (2 # 10) (2 # 10) "both" "left" sample_world (after_ints 2) (after_ints 3) H1 H2).
Defined.

(** ** Fixed-length normalisation *)

(** X7. Normalising the frame count is idempotent: for a well-formed
    matrix and a target that is not negative, padding or truncating a
    second time to the same [max_len] changes nothing. *)
Theorem pad_or_truncate_idempotent (mfcc : ndarray2) (max_len : Z) :
  wf_ndarray2 mfcc → 0 ≤ max_len →
  pad_or_truncate (pad_or_truncate mfcc max_len) max_len = pad_or_truncate mfcc max_len.
Proof.
  intros [Hr Hc] Hpos. unfold pad_or_truncate at 2 3.
  case_bool_decide as Hlt.
  - unfold pad_or_truncate. rewrite bool_decide_eq_false_2 by (simpl; lia).
    unfold slice_cols, slice_stop, np_pad. rewrite bool_decide_eq_false_2 by lia. simpl.
    f_equal; try lia.
    rewrite <- list_fmap_compose. apply Forall_fmap_ext_1.
    eapply Forall_impl; [exact Hc|]. simpl. intros row Hrow.
    apply take_ge. rewrite length_app, length_replicate. lia.
  - unfold pad_or_truncate. rewrite bool_decide_eq_false_2.
    2:{ simpl. unfold slice_stop. rewrite bool_decide_eq_false_2 by lia. lia. }
    unfold slice_cols, slice_stop. rewrite !bool_decide_eq_false_2 by lia. simpl.
    f_equal; try lia.
    rewrite <- list_fmap_compose. apply list_fmap_ext. intros i row _. simpl.
    rewrite take_take. f_equal. lia.
Qed.

Section Extraction.
Context `{Librosa}.

(** X8. A negative [max_len] is not refused: the comparison
    [mfcc.shape[1] < max_len] fails, and the slice [mfcc[:, :max_len]]
    drops the last [-max_len] frames. The sequence then has
    [max(frames + max_len, 0)] frames, not a fixed number, each holding
    the coefficients of the recording unpadded. *)
Theorem extract_mfcc_sequence_negative_max_len (file_path : string) (n_mfcc : nat)
    (max_len : Z) (w : World) (y : list Q) (sr : Z) :
  max_len < 0 →
  fs w !! file_path = Some (Audio y sr) →
  ∃ mfcc_seq,
    extract_mfcc_sequence file_path n_mfcc max_len w = (Ok mfcc_seq, w) ∧
    shape0 mfcc_seq = Z.to_nat (Z.of_nat (mfcc_frames y sr) + max_len) ∧
    shape1 mfcc_seq = n_mfcc ∧
    ∀ t c, (t < shape0 mfcc_seq)%nat → (c < n_mfcc)%nat →
      item mfcc_seq t c = Some (mfcc_coef y sr n_mfcc c t).
Proof.
  intros Hneg Hfile.
  unfold extract_mfcc_sequence, bind, librosa_load, ret. rewrite Hfile.
  eexists. split; [reflexivity|].
  unfold pad_or_truncate. rewrite bool_decide_eq_false_2 by (simpl; lia).
  assert (Hstop : slice_stop (mfcc_frames y sr) max_len
                  = Z.to_nat (Z.of_nat (mfcc_frames y sr) + max_len)).
  { unfold slice_stop. rewrite bool_decide_eq_true_2 by done. lia. }
  simpl. rewrite Hstop. split_and!; [done..|].
  intros t c Ht Hc. unfold item. simpl. rewrite Hstop.
  rewrite list_lookup_fmap, lookup_seq_lt by done. simpl.
  rewrite !list_lookup_fmap, lookup_seq_lt by done. simpl. f_equal.
  rewrite nth_lookup, lookup_take_lt by done.
  rewrite list_lookup_fmap, lookup_seq_lt by lia. done.
Qed.

(** X9. The layout of the pooled feature vector: on a readable file
    [extract_feature] leaves the world as it is and returns the parts its
    flags select, in the order MFCC, chroma, mel, whatever the order of
    the flags; the MFCC part has 40 entries, entry [c] being the mean of
    coefficient [c] over the frames. *)
Theorem extract_feature_layout (file_name : string) (mfcc chroma mel : bool)
    (w : World) (X : list Q) (sample_rate : Z) :
  fs w !! file_name = Some (Audio X sample_rate) →
  extract_feature file_name mfcc chroma mel w
  = (Ok ((if mfcc then row_means (librosa_mfcc X sample_rate 40) else [])
         ++ (if chroma then row_means (chroma_stft (stft_abs X) sample_rate) else [])
         ++ (if mel then row_means (melspectrogram X sample_rate) else [])), w) ∧
  length (row_means (librosa_mfcc X sample_rate 40)) = 40%nat ∧
  ∀ c, (c < 40)%nat →
    row_means (librosa_mfcc X sample_rate 40) !! c
    = Some (q_sum (map (mfcc_coef X sample_rate 40 c) (seq 0 (mfcc_frames X sample_rate)))
            / inject_Z (Z.of_nat (mfcc_frames X sample_rate)))%Q.
Proof.
  intros Hfile. split_and!.
  - unfold extract_feature, bind, librosa_load, ret. rewrite Hfile.
    cbv beta iota zeta.
    destruct mfcc, chroma, mel; rewrite ?app_nil_l, ?app_nil_r, <- ?app_assoc; done.
  - unfold row_means, librosa_mfcc, tabulate. cbn [cells].
    by rewrite !length_map, length_seq.
  - intros c Hc. unfold row_means, librosa_mfcc, tabulate. cbn [cells].
    rewrite !list_lookup_fmap, lookup_seq_lt by done. cbn [fmap option_fmap option_map].
    by rewrite length_map, length_seq.
Qed.

(** X10. Outside the loader no failure of [librosa.load] is caught: on a
    path that is missing or does not decode, [extract_feature],
    [extract_mfcc_sequence] and [predict_emotion] each end with the error
    of the load, the world unchanged and the model never consulted. *)
Theorem unreadable_clip_raises (path : string) (e : exn) (w : World)
    (mfcc chroma mel : bool) (n_mfcc : nat) (max_len : Z)
    (model : KerasModel) (le : LabelEncoder) :
  load_failure path (fs w !! path) = Some e →
  extract_feature path mfcc chroma mel w = (Raise e, w) ∧
  extract_mfcc_sequence path n_mfcc max_len w = (Raise e, w) ∧
  predict_emotion path model le max_len w = (Raise e, w).
Proof.
  intros Hfail.
  unfold extract_feature, predict_emotion, extract_mfcc_sequence, bind, librosa_load.
  destruct (fs w !! path) as [[samples sr|msg]|]; simpl in Hfail; simplify_eq; done.
Qed.
End Extraction.

Lemma pad_or_truncate_idempotent_witness :
  pad_or_truncate (pad_or_truncate sample_mfcc 5) 5 = pad_or_truncate sample_mfcc 5 ∧
  pad_or_truncate (pad_or_truncate sample_mfcc 2) 2 = pad_or_truncate sample_mfcc 2.
Proof.
  split.
  - apply (pad_or_truncate_idempotent sample_mfcc 5); [|lia].
    split; [reflexivity|repeat constructor].
  - apply (pad_or_truncate_idempotent sample_mfcc 2); [|lia].
    split; [reflexivity|repeat constructor].
Defined.

Lemma extract_mfcc_sequence_negative_max_len_witness :
  ∃ mfcc_seq,
    @extract_mfcc_sequence sample_librosa angry_clip 2 (-1) sample_world
    = (Ok mfcc_seq, sample_world) ∧
    shape0 mfcc_seq
    = Z.to_nat (Z.of_nat (@mfcc_frames sample_librosa ten_samples 22050) + -1) ∧
    shape1 mfcc_seq = 2%nat ∧
    ∀ t c, (t < shape0 mfcc_seq)%nat → (c < 2)%nat →
      item mfcc_seq t c = Some (@mfcc_coef sample_librosa ten_samples 22050 2 c t).
Proof.
  apply (@extract_mfcc_sequence_negative_max_len sample_librosa angry_clip 2 (-1)
           sample_world ten_samples 22050); [lia|by vm_compute].
Defined.

Lemma extract_feature_layout_witness :
  @extract_feature sample_librosa angry_clip true false true sample_world
  = (Ok (@row_means (@librosa_mfcc sample_librosa ten_samples 22050 40)
         ++ [] ++ @row_means (@melspectrogram sample_librosa ten_samples 22050)),
     sample_world) ∧
  length (row_means (@librosa_mfcc sample_librosa ten_samples 22050 40)) = 40%nat ∧
  ∀ c, (c < 40)%nat →
    row_means (@librosa_mfcc sample_librosa ten_samples 22050 40) !! c
    = Some (q_sum (map (@mfcc_coef sample_librosa ten_samples 22050 40 c)
                       (seq 0 (@mfcc_frames sample_librosa ten_samples 22050)))
            / inject_Z (Z.of_nat (@mfcc_frames sample_librosa ten_samples 22050)))%Q.
Proof.
  apply (@extract_feature_layout sample_librosa angry_clip true false true
           sample_world ten_samples 22050). by vm_compute.
Defined.

Lemma unreadable_clip_raises_witness :
  @extract_feature sample_librosa broken_clip true true true sample_world
  = (Raise (AudioReadError "file does not start with RIFF id"), sample_world) ∧
  @extract_mfcc_sequence sample_librosa broken_clip 40 200 sample_world
  = (Raise (AudioReadError "file does not start with RIFF id"), sample_world) ∧
  @predict_emotion sample_librosa broken_clip sample_model sample_encoder 200 sample_world
  = (Raise (AudioReadError "file does not start with RIFF id"), sample_world).
Proof.
  apply (@unreadable_clip_raises sample_librosa broken_clip
           (AudioReadError "file does not start with RIFF id") sample_world
           true true true 40 200 sample_model sample_encoder).
  by vm_compute.
Defined.

(** ** Dataset Builder: what the deep-learning loop keeps *)

Section LoopInvariant.
Context `{Librosa}.

Lemma sequence_of_fixed_shape y sr max_len :
  0 ≤ max_len → fixed_shape max_len (sequence_of y sr max_len).
Proof.
  intros Hpos. unfold sequence_of, fixed_shape.
  destruct (pad_or_truncate_shape (librosa_mfcc y sr 40) max_len Hpos) as [Hs0 Hs1].
  split_and!.
  - apply transpose_wf, pad_or_truncate_wf, librosa_mfcc_wf.
  - simpl. exact Hs1.
  - simpl. by rewrite Hs0.
Qed.

(** One turn of the loop, whatever the clip: examples are only appended,
    features and labels in step, each feature of the fixed shape and each
    label from the table; the disk is left alone, output is only added
    to; and the one exception that gets out is the [IndexError] of a
    malformed name. *)
Lemma load_data_dl_body_step max_len augment file w d :
  ∃ xs ys lines w',
    load_data_dl_body max_len augment file (w, d)
    = (if emotion_code_of file is Some _ then Ok () else Raise (IndexError "list index out of range"),
       (w', {| ds_x := ds_x d ++ xs; ds_y := ds_y d ++ ys |})) ∧
    fs w' = fs w ∧ stdout w' = stdout w ++ lines ∧
    length xs = length ys ∧ (length xs ≤ examples_per_clip augment)%nat ∧
    Forall (λ label, label ∈ observed_emotions) ys ∧
    (0 ≤ max_len → Forall (fixed_shape max_len) xs).
Proof.
  destruct d as [x0 y0].
  destruct (emotion_code_of file) as [code|] eqn:Hcode.
  2:{ exists [], [], [], w. rewrite load_data_dl_body_malformed by done.
      simpl. rewrite !app_nil_r. split_and!; try done. lia. }
  destruct (emotions !! code) as [emotion|] eqn:Hlabel.
  2:{ exists [], [], [], w. rewrite (load_data_dl_body_unknown _ _ _ code) by done.
      simpl. rewrite !app_nil_r. split_and!; try done. lia. }
  assert (Hlab : label_of file = Some emotion) by (unfold label_of; by rewrite Hcode).
  assert (Hobs : emotion ∈ observed_emotions) by (by eapply label_of_observed).
  destruct (load_failure file (fs w !! file)) as [e|] eqn:Hfail.
  { exists [], [], ["Error processing " +:+ file +:+ ": " +:+ exn_str e]. eexists.
    rewrite (load_data_dl_body_unreadable _ _ _ emotion e) by done.
    simpl. rewrite !app_nil_r. split_and!; try done. lia. }
  destruct (fs w !! file) as [[samples sr|msg]|] eqn:Hdisk; try done.
  assert (Hclose : ∀ xs ys : list _, ∀ n : nat,
            Forall (λ y, y = emotion) ys → length xs = length ys →
            (length xs ≤ n)%nat →
            (0 ≤ max_len → Forall (fixed_shape max_len) xs) →
            length xs = length ys ∧ (length xs ≤ n)%nat ∧
            Forall (λ label, label ∈ observed_emotions) ys ∧
            (0 ≤ max_len → Forall (fixed_shape max_len) xs)).
  { intros xs ys n Hys ? ? ?. split_and!; try done.
    eapply Forall_impl; [exact Hys|]. by intros ? ->. }
  destruct augment.
  - destruct (decide (length samples < 5)%nat) as [Hshort|Hlong].
    + rewrite (load_data_dl_body_short max_len file emotion samples sr) by done.
      exists [sequence_of samples sr max_len;
              sequence_of (noisy w samples (5 # 1000)) sr max_len],
             [emotion; emotion],
             ["Error processing " +:+ file +:+ ": high <= 0"].
      eexists. split; [reflexivity|]. split; [done|]. split; [done|].
      apply Hclose; simpl; [by repeat constructor|done|lia|].
      intros Hpos. repeat constructor; by apply sequence_of_fixed_shape.
    + destruct (load_data_dl_body_usable max_len true file emotion samples sr w
                  {| ds_x := x0; ds_y := y0 |} Hlab Hdisk)
        as (k & w' & _ & Hbody & Hfs & Hout).
      { intros _. destruct (decide (1 ≤ shift_bound samples (2 # 10))); [done|].
        exfalso. apply Hlong, shift_bound_short. lia. }
      rewrite Hbody.
      exists [sequence_of samples sr max_len;
              sequence_of (noisy w samples (5 # 1000)) sr max_len;
              sequence_of (np_roll samples k) sr max_len],
             [emotion; emotion; emotion], [], w'.
      split; [reflexivity|]. rewrite app_nil_r. split; [done|]. split; [done|].
      apply Hclose; simpl; [by repeat constructor|done|lia|].
      intros Hpos. repeat constructor; by apply sequence_of_fixed_shape.
  - destruct (load_data_dl_body_usable max_len false file emotion samples sr w
                {| ds_x := x0; ds_y := y0 |} Hlab Hdisk)
      as (k & w' & _ & Hbody & Hfs & Hout); [done|].
    rewrite Hbody.
    exists [sequence_of samples sr max_len], [emotion], [], w'.
    split; [reflexivity|]. rewrite app_nil_r. split; [done|]. split; [done|].
    apply Hclose; simpl; [by repeat constructor|done|lia|].
    intros Hpos. repeat constructor; by apply sequence_of_fixed_shape.
Qed.

(** X11. A readable clip of fewer than five samples, under augmentation:
    [int(len(data) * 0.2)] is 0, [shift] raises inside the [try], and the
    clip is not dropped as a whole. Its original and its noisy example,
    appended before the failure, stay in the dataset; the shifted one is
    missing; one diagnostic is printed, the noise draws are consumed, and
    the loop goes on with the files that follow. *)
Theorem short_clip_keeps_two_examples (max_len : Z) (file emotion : string)
    (samples : list Q) (sr : Z) (rest : list string) (w : World) (d : Dataset ndarray2) :
  label_of file = Some emotion →
  fs w !! file = Some (Audio samples sr) →
  (length samples < 5)%nat →
  load_data_dl_files max_len true (file :: rest) (w, d)
  = load_data_dl_files max_len true rest
      ({| fs := fs w;
          np_random := skip_normals (length samples) (np_random w);
          stdout := stdout w ++ ["Error processing " +:+ file +:+ ": high <= 0"] |},
       {| ds_x := ds_x d ++ [sequence_of samples sr max_len;
                             sequence_of (noisy w samples (5 # 1000)) sr max_len];
          ds_y := ds_y d ++ [emotion; emotion] |}).
Proof.
  intros Hlabel Hfile Hshort. unfold load_data_dl_files. simpl for_each.
  erewrite bind_Ok; [reflexivity|].
  by apply load_data_dl_body_short.
Qed.

(** X12. An invariant of the loop of [load_data_dl], over any corpus and
    whether or not it ends normally: examples are only appended, features
    and labels in equal number, at most three per file under augmentation
    and one without; every label is one of the eight emotions; for a
    [max_len] that is not negative every feature has [max_len] frames of
    40 coefficients; the disk is not written and output is only added. *)
Theorem load_data_dl_loop_invariant (max_len : Z) (augment : bool)
    (files : list string) (w : World) (d : Dataset ndarray2) :
  ∃ xs ys lines w',
    (load_data_dl_files max_len augment files (w, d)).2
    = (w', {| ds_x := ds_x d ++ xs; ds_y := ds_y d ++ ys |}) ∧
    fs w' = fs w ∧ stdout w' = stdout w ++ lines ∧
    length xs = length ys ∧
    (length xs ≤ examples_per_clip augment * length files)%nat ∧
    Forall (λ label, label ∈ observed_emotions) ys ∧
    (0 ≤ max_len → Forall (fixed_shape max_len) xs).
Proof.
  revert w d. induction files as [|file files IH]; intros w d.
  { exists [], [], [], w. destruct d. simpl. rewrite !app_nil_r.
    split_and!; try done. lia. }
  unfold load_data_dl_files in *. simpl for_each. unfold bind.
  destruct (load_data_dl_body_step max_len augment file w d)
    as (xs & ys & lines & w1 & -> & Hfs & Hout & Hlen & Hmax & Hobs & Hshape).
  destruct (emotion_code_of file).
  - destruct (IH w1 {| ds_x := ds_x d ++ xs; ds_y := ds_y d ++ ys |})
      as (xs' & ys' & lines' & w' & -> & Hfs' & Hout' & Hlen' & Hmax' & Hobs' & Hshape').
    exists (xs ++ xs'), (ys ++ ys'), (lines ++ lines'), w'. simpl.
    rewrite !app_assoc, !length_app, Hfs', Hout', Hout, Hfs.
    split_and!; try done; [lia|simpl; lia|by apply Forall_app|].
    intros Hpos. apply Forall_app. auto.
  - exists xs, ys, lines, w1. simpl. split_and!; try done. lia.
Qed.

(** X13. The one exception that gets out of the loop of [load_data_dl] is
    the [IndexError] of the subscript [[2]], which sits before the [try]:
    the loop ends normally exactly when every base name has at least
    three dash-separated tokens, whatever the files hold. *)
Theorem load_data_dl_raises_only_on_malformed_names (max_len : Z) (augment : bool)
    (files : list string) (s : World * Dataset ndarray2) :
  (load_data_dl_files max_len augment files s).1
  = if bool_decide (Forall (λ file, is_Some (emotion_code_of file)) files)
    then Ok () else Raise (IndexError "list index out of range").
Proof.
  revert s. induction files as [|file files IH]; intros [w d]; [done|].
  unfold load_data_dl_files in *. simpl for_each. unfold bind.
  destruct (load_data_dl_body_step max_len augment file w d)
    as (xs & ys & lines & w1 & -> & _).
  destruct (emotion_code_of file) as [code|] eqn:Hcode.
  - rewrite IH. erewrite bool_decide_ext; [done|]. rewrite Forall_cons, Hcode.
    split; [|tauto]. intros ?; split; [by eexists|done].
  - rewrite bool_decide_eq_false_2; [done|].
    rewrite Forall_cons, Hcode. intros [[? [=]] _].
Qed.
End LoopInvariant.

Lemma short_clip_keeps_two_examples_witness :
  @load_data_dl_files sample_librosa 200 true [short_clip; angry_clip]
    (sample_world, empty_dataset)
  = @load_data_dl_files sample_librosa 200 true [angry_clip]
      ({| fs := fs sample_world;
          np_random := skip_normals (length four_samples) (np_random sample_world);
          stdout := stdout sample_world
                    ++ ["Error processing " +:+ short_clip +:+ ": high <= 0"] |},
       {| ds_x := ds_x (@empty_dataset ndarray2)
                  ++ [@sequence_of sample_librosa four_samples 22050 200;
                      @sequence_of sample_librosa
                        (noisy sample_world four_samples (5 # 1000)) 22050 200];
          ds_y := ds_y (@empty_dataset ndarray2) ++ ["sad"; "sad"] |}).
Proof.
  apply (@short_clip_keeps_two_examples sample_librosa 200 short_clip "sad"
           four_samples 22050 [angry_clip] sample_world empty_dataset); by vm_compute.
Defined.

(** ** The unstratified split *)

Lemma take_indices_seq {A} (pre l : list A) :
  take_indices (pre ++ l) (seq (length pre) (length l)) = l.
Proof.
  revert pre. induction l as [|x l IH]; intros pre; [done|].
  unfold take_indices in *. simpl.
  rewrite list_lookup_middle by done. f_equal.
  specialize (IH (pre ++ [x])). rewrite <- app_assoc, length_app in IH. simpl in IH.
  by rewrite Nat.add_1_r in IH.
Qed.

Lemma take_indices_all {A} (l : list A) (indices : list nat) :
  indices ≡ₚ seq 0 (length l) → take_indices l indices ≡ₚ l.
Proof.
  intros Hperm. unfold take_indices. rewrite Hperm.
  pose proof (take_indices_seq [] l) as Hseq. unfold take_indices in Hseq.
  simpl in Hseq. by rewrite Hseq.
Qed.

Lemma take_indices_zip {A B} (x : list A) (y : list B) (indices : list nat) :
  length y = length x →
  take_indices (zip x y) indices = zip (take_indices x indices) (take_indices y indices).
Proof.
  intros Hlen. unfold take_indices.
  induction indices as [|i indices IH]; [done|]. simpl.
  rewrite lookup_zip_with.
  destruct (x !! i) as [a|] eqn:Hx; simpl.
  - destruct (y !! i) as [b|] eqn:Hy; simpl; [f_equal; exact IH|].
    apply lookup_lt_Some in Hx. apply lookup_ge_None in Hy. lia.
  - destruct (y !! i) as [b|] eqn:Hy; [|exact IH].
    apply lookup_lt_Some in Hy. apply lookup_ge_None in Hx. lia.
Qed.

Lemma take_indices_length {A} (l : list A) (indices : list nat) :
  Forall (λ i, i < length l)%nat indices →
  length (take_indices l indices) = length indices.
Proof.
  unfold take_indices. induction 1 as [|i indices Hi _ IH]; [done|]. simpl.
  destruct (lookup_lt_is_Some_2 l i Hi) as [a ->]. simpl. f_equal. exact IH.
Qed.

Section Split.
Context `{Sklearn}.

Lemma permutation_bound seed n : Forall (λ i, i < n)%nat (permutation seed n).
Proof.
  rewrite (permutation_perm seed n). apply Forall_forall.
  intros i Hi. apply elem_of_seq in Hi. lia.
Qed.

Lemma permutation_length seed n : length (permutation seed n) = n.
Proof. by rewrite (permutation_perm seed n), length_seq. Qed.

(** The index lists that [train_test_split] cuts from the permutation. *)
Lemma split_indices_partition {X Y} (x : list X) (y : list Y) (n_test : nat) seed :
  length y = length x → (n_test < length x)%nat →
  let perm := permutation seed (length x) in
  let ind_test := take n_test perm in
  let ind_train := take (length x - n_test) (drop n_test perm) in
  length (take_indices x ind_test) = n_test ∧
  length (take_indices x ind_train) = (length x - n_test)%nat ∧
  length (take_indices y ind_test) = length (take_indices x ind_test) ∧
  length (take_indices y ind_train) = length (take_indices x ind_train) ∧
  take_indices x ind_train ++ take_indices x ind_test ≡ₚ x ∧
  zip (take_indices x ind_train) (take_indices y ind_train)
    ++ zip (take_indices x ind_test) (take_indices y ind_test) ≡ₚ zip x y.
Proof.
  intros Hlen Hn perm ind_test ind_train.
  pose proof (permutation_bound seed (length x)) as Hbound.
  pose proof (permutation_length seed (length x)) as Hplen.
  fold perm in Hbound, Hplen.
  assert (Htest : Forall (λ i, i < length x)%nat ind_test)
    by (by apply Forall_take).
  assert (Htrain : Forall (λ i, i < length x)%nat ind_train)
    by (by apply Forall_take, Forall_drop).
  assert (Hall : ind_train ++ ind_test ≡ₚ seq 0 (length x)).
  { unfold ind_train, ind_test. rewrite take_ge by (rewrite length_drop; lia).
    rewrite Permutation_app_comm, take_drop. apply permutation_perm. }
  split_and!.
  - unfold ind_test. rewrite take_indices_length, length_take by done. lia.
  - unfold ind_train.
    rewrite take_indices_length, length_take, length_drop by done. lia.
  - rewrite !take_indices_length by (by rewrite ?Hlen). done.
  - rewrite !take_indices_length by (by rewrite ?Hlen). done.
  - unfold take_indices. rewrite <- omap_app. by apply take_indices_all.
  - rewrite <- !take_indices_zip by done.
    unfold take_indices. rewrite <- omap_app. apply take_indices_all.
    rewrite length_zip_with. rewrite Hlen, Nat.min_id. done.
Qed.

(** What [n_test_samples] answers: the size of [n_test_of] on a
    [test_size] in range, an error on any other. *)
Lemma n_test_samples_cases (test_size : py_size) (n_samples : nat) :
  (size_in_range test_size n_samples ∧
   n_test_samples test_size n_samples = Ok (n_test_of test_size n_samples)) ∨
  (¬ size_in_range test_size n_samples ∧
   ∃ e, n_test_samples test_size n_samples = Raise e).
Proof.
  destruct test_size as [fraction|count|]; simpl.
  - destruct (Qle_bool fraction 0) eqn:H0; simpl.
    { apply Qle_bool_iff in H0. right. split; [|by eexists].
      intros [Hpos _]. by apply (Qlt_not_le _ _ Hpos). }
    destruct (Qle_bool 1 fraction) eqn:H1; simpl.
    { apply Qle_bool_iff in H1. right. split; [|by eexists].
      intros [_ Hlt]. by apply (Qlt_not_le _ _ Hlt). }
    left. split; [|done]. split.
    + apply Qnot_le_lt. intros Hle. apply Qle_bool_iff in Hle. congruence.
    + apply Qnot_le_lt. intros Hle. apply Qle_bool_iff in Hle. congruence.
  - repeat case_bool_decide; simpl.
    + right. split; [lia|by eexists].
    + right. split; [lia|by eexists].
    + right. split; [lia|by eexists].
    + left. split; [lia|done].
  - by left.
Qed.

(** The two ways a call of [train_test_split] ends. *)
Lemma train_test_split_cases {S X Y} (x : list X) (y : list Y) (test_size : py_size)
    (random_state : Z) (s : S) :
  let n_test := n_test_of test_size (length x) in
  let perm := permutation random_state (length x) in
  (length y = length x ∧ size_in_range test_size (length x) ∧
   (n_test < length x)%nat ∧
   train_test_split x y test_size random_state s
   = (Ok (take_indices x (take (length x - n_test) (drop n_test perm)),
          take_indices x (take n_test perm),
          take_indices y (take (length x - n_test) (drop n_test perm)),
          take_indices y (take n_test perm)), s)) ∨
  (¬ (length y = length x ∧ size_in_range test_size (length x) ∧
      (n_test < length x)%nat) ∧
   ∃ e, train_test_split x y test_size random_state s = (Raise e, s)).
Proof.
  intros n_test perm. unfold train_test_split. fold perm.
  case_bool_decide as Hlen; simpl.
  2:{ right. split; [tauto|by eexists]. }
  destruct (n_test_samples_cases test_size (length x))
    as [[Hrange ->]|(Hnot & e & ->)].
  2:{ right. split; [tauto|by eexists]. }
  fold n_test. case_bool_decide as Htrain; simpl.
  - right. split; [|by eexists]. intros (_ & _ & Hn). lia.
  - left. split_and!; try done. lia.
Qed.

(** X14. When the split runs: [train_test_split] returns exactly when
    features and labels are equally many, the [test_size] is in range (a
    float strictly between 0 and 1, an int that is positive and below
    the number of samples, or [None]) and the test part it asks for, for
    a float [ceil(test_size * n)], leaves at least one example for
    training; in every other case it raises. *)
Theorem train_test_split_runs_iff {S X Y} (x : list X) (y : list Y) (test_size : py_size)
    (random_state : Z) (s : S) :
  ((∃ parts, (train_test_split x y test_size random_state s).1 = Ok parts) ↔
   length y = length x ∧
   match test_size with
   | size_float fraction => (0 < fraction)%Q ∧ (fraction < 1)%Q
   | size_int count => 0 < count < Z.of_nat (length x)
   | size_None => True
   end ∧
   (n_test_of test_size (length x) < length x)%nat) ∧
  ((∃ e, train_test_split x y test_size random_state s = (Raise e, s)) ∨
   (∃ parts, train_test_split x y test_size random_state s = (Ok parts, s))).
Proof.
  destruct (train_test_split_cases x y test_size random_state s)
    as [(Hlen & Hrange & Hn & Hrun)|(Hnot & e & Hrun)]; rewrite Hrun; simpl.
  - split; [|right; by eexists]. split; [|intros _; by eexists].
    intros _. split_and!; [done| |done]. by destruct test_size.
  - split; [|left; by eexists]. split; [by intros [parts [=]]|].
    intros (Hlen & Hrange & Hn). exfalso. apply Hnot. split_and!; [done| |done].
    by destruct test_size.
Qed.

(** X15. What the split returns is a partition: the test part has the
    size asked for, [ceil(test_size * n)] examples for a float and
    [test_size] for an int, and the training part the rest; labels stay
    attached to their features, and training and test pairs together are
    a rearrangement of the input pairs, so that no example is lost,
    duplicated or shared between the two parts. The state is untouched. *)
Theorem train_test_split_partitions {S X Y} (x : list X) (y : list Y)
    (test_size : py_size) (random_state : Z) (s s' : S)
    (x_train x_test : list X) (y_train y_test : list Y) :
  train_test_split x y test_size random_state s
  = (Ok (x_train, x_test, y_train, y_test), s') →
  s' = s ∧
  length x_test = n_test_of test_size (length x) ∧
  length x_train = (length x - n_test_of test_size (length x))%nat ∧
  length y_test = length x_test ∧ length y_train = length x_train ∧
  x_train ++ x_test ≡ₚ x ∧
  zip x_train y_train ++ zip x_test y_test ≡ₚ zip x y.
Proof.
  intros Heq.
  destruct (train_test_split_cases x y test_size random_state s)
    as [(Hlen & _ & Hn & Hrun)|(_ & e & Hrun)]; rewrite Hrun in Heq; [|done].
  injection Heq as <- <- <- <- <-.
  destruct (split_indices_partition x y (n_test_of test_size (length x)) random_state
              Hlen Hn) as (Hte & Htr & Hyte & Hytr & Hperm & Hzip).
  split_and!; done.
Qed.
End Split.

(** ** Dataset Builder, classical path: the whole of [load_data] *)

Section LoadDataWhole.
Context `{Librosa} `{Sklearn}.





(** X17. With no file to read, [load_data] does not return empty parts:
    the split refuses the empty dataset with a [ValueError], whatever the
    test size, be it a float, an int or [None], and the augmentation
    flag. *)
Theorem load_data_empty_corpus_raises (test_size : py_size) (augment : bool)
    (s : World * Dataset (list Q)) :
  ∃ msg, load_data test_size augment [] s
         = (Raise (ValueError msg), (s.1, empty_dataset)).
Proof.
  unfold load_data, bind, modify, get, train_test_split. simpl.
  destruct test_size as [fraction|count|]; simpl.
  - destruct (Qle_bool fraction 0 || Qle_bool 1 fraction); by eexists.
  - destruct (bool_decide (count ≤ 0) || bool_decide (Z.of_nat 0 ≤ count)); by eexists.
  - by eexists.
Qed.

(** X19. The augmenting [load_data] has no [try]: a readable clip of the
    table with fewer than five samples makes [shift] raise, and the
    [ValueError] ends the whole load. By then the original feature has
    been appended twice (once as the noise example); the disk, the output
    and the random state are as they were. *)
Theorem load_data_short_clip_aborts (file emotion : string)
    (samples : list Q) (sr : Z) (w : World) (d : Dataset (list Q)) (rest : list string) :
  label_of file = Some emotion →
  fs w !! file = Some (Audio samples sr) →
  (length samples < 5)%nat →
  load_data_files true (file :: rest) (w, d)
  = (Raise (ValueError "high <= 0"),
     (w, {| ds_x := ds_x d ++ [pooled_feature samples sr; pooled_feature samples sr];
            ds_y := ds_y d ++ [emotion; emotion] |})).
Proof.
  unfold label_of, emotion_code_of. intros Hlabel Hfile Hshort.
  destruct (split "-"%char (basename file) !! 2%nat) as [code|] eqn:Hcode; [|done].
  simpl in Hlabel.
  pose proof (emotions_observed code emotion Hlabel) as Hobs. unfold not_in in Hobs.
  apply bind_Raise.
  unfold load_data_body, bind at 1, getitem. rewrite Hcode. simpl.
  unfold bind at 1, dict_getitem. rewrite Hlabel. simpl. rewrite Hobs.
  unfold bind, liftW, append, modify. simpl.
  rewrite (extract_feature_audio _ _ _ _ Hfile). simpl.
  unfold librosa_load at 1. rewrite Hfile. simpl.
  rewrite (extract_feature_audio _ _ _ _ Hfile). simpl.
  rewrite shift_empty_range by (by apply shift_bound_short).
  simpl. by rewrite <- !app_assoc.
Qed.
End LoadDataWhole.

Lemma train_test_split_partitions_witness :
  (@train_test_split sample_sklearn unit nat string five_examples five_labels (2 # 10) 42 tt
   = (Ok ([4; 3; 2; 1]%nat, [5]%nat, ["sad"; "calm"; "happy"; "calm"], ["happy"]), tt) ∧
   length [5]%nat = n_test_of (2 # 10) (length five_examples) ∧
   [4; 3; 2; 1]%nat ++ [5]%nat ≡ₚ five_examples) ∧
  (@train_test_split sample_sklearn unit nat string five_examples five_labels
     (size_int 2) 42 tt
   = (Ok ([3; 2; 1]%nat, [5; 4]%nat, ["calm"; "happy"; "calm"], ["happy"; "sad"]), tt) ∧
   length [5; 4]%nat = n_test_of (size_int 2) (length five_examples) ∧
   [3; 2; 1]%nat ++ [5; 4]%nat ≡ₚ five_examples).
Proof.
  assert (Hrun : @train_test_split sample_sklearn unit nat string five_examples
                   five_labels (2 # 10) 42 tt
                 = (Ok ([4; 3; 2; 1]%nat, [5]%nat, ["sad"; "calm"; "happy"; "calm"],
                        ["happy"]), tt)) by reflexivity.
  assert (Hint : @train_test_split sample_sklearn unit nat string five_examples
                   five_labels (size_int 2) 42 tt
                 = (Ok ([3; 2; 1]%nat, [5; 4]%nat, ["calm"; "happy"; "calm"],
                        ["happy"; "sad"]), tt)) by reflexivity.
  split.
  - split; [exact Hrun|].
    destruct (@train_test_split_partitions sample_sklearn unit nat string five_examples
                five_labels (2 # 10) 42 tt tt _ _ _ _ Hrun)
      as (_ & Htest & _ & _ & _ & Hperm & _).
    split; [exact Htest|exact Hperm].
  - split; [exact Hint|].
    destruct (@train_test_split_partitions sample_sklearn unit nat string five_examples
                five_labels (size_int 2) 42 tt tt _ _ _ _ Hint)
      as (_ & Htest & _ & _ & _ & Hperm & _).
    split; [exact Htest|exact Hperm].
Defined.


Lemma load_data_short_clip_aborts_witness :
  @load_data_files sample_librosa true [short_clip; angry_clip] (sample_world, empty_dataset)
  = (Raise (ValueError "high <= 0"),
     (sample_world,
      {| ds_x := ds_x (@empty_dataset (list Q))
                 ++ [@pooled_feature sample_librosa four_samples 22050;
                     @pooled_feature sample_librosa four_samples 22050];
         ds_y := ds_y (@empty_dataset (list Q)) ++ ["sad"; "sad"] |})).
Proof.
  apply (@load_data_short_clip_aborts sample_librosa short_clip "sad" four_samples 22050
           sample_world empty_dataset [angry_clip]).
  - by vm_compute.
  - by vm_compute.
  - simpl. lia.
Defined.

(** ** Class-Imbalance Corrector: what the weights balance *)

(** X21. Balanced weights equalise the classes: every class that occurs
    gets a positive weight, and its example count times its weight is the
    same for all of them, [n / m]. *)
Theorem balanced_weights_equalise_classes (y_train_labels : list nat) (i c : nat) :
  np_unique y_train_labels !! i = Some c →
  ∃ (weight : gmap nat Q) (w_c : Q),
    class_weight_dict y_train_labels = Ok weight ∧
    weight !! i = Some w_c ∧
    (0 < w_c)%Q ∧
    (inject_Z (Z.of_nat (bincount y_train_labels c)) * w_c
     == inject_Z (Z.of_nat (length y_train_labels))
        / inject_Z (Z.of_nat (length (np_unique y_train_labels))))%Q.
Proof.
  intros Hc.
  assert (Hin : c ∈ y_train_labels)
    by (apply elem_of_np_unique; by eapply list_elem_of_lookup_2).
  assert (Hne : y_train_labels ≠ []).
  { intros ->. by apply elem_of_nil in Hin. }
  do 2 eexists. split; [by apply class_weight_dict_eq|].
  rewrite lookup_map_seq_0, list_lookup_fmap, Hc. split; [done|].
  assert (Hcount : (0 < bincount y_train_labels c)%nat) by (by apply bincount_pos).
  assert (Hm : (0 < length (np_unique y_train_labels))%nat)
    by (apply lookup_lt_Some in Hc; lia).
  assert (Hn : (0 < length y_train_labels)%nat).
  { destruct y_train_labels; [by apply elem_of_nil in Hin|simpl; lia]. }
  unfold balanced_weight, compose.
  set (n := Z.of_nat (length y_train_labels)) in *.
  set (m := Z.of_nat (length (np_unique y_train_labels))) in *.
  set (k := Z.of_nat (bincount y_train_labels c)) in *.
  assert (0 < inject_Z n)%Q by (unfold Qlt; simpl; lia).
  assert (0 < inject_Z m)%Q by (unfold Qlt; simpl; lia).
  assert (0 < inject_Z k)%Q by (unfold Qlt; simpl; lia).
  split.
  - apply Qlt_shift_div_l; [by apply Qmult_lt_0_compat|]. by rewrite Qmult_0_l.
  - field. split; by apply Qnot_eq_sym, Qlt_not_eq.
Qed.

Lemma balanced_weights_equalise_classes_witness :
  np_unique [0; 2; 2; 5]%nat !! 1%nat = Some 2%nat ∧
  ∃ (weight : gmap nat Q) (w_c : Q),
    class_weight_dict [0; 2; 2; 5]%nat = Ok weight ∧
    weight !! 1%nat = Some w_c ∧
    (0 < w_c)%Q ∧
    (inject_Z (Z.of_nat (bincount [0; 2; 2; 5]%nat 2)) * w_c
     == inject_Z (Z.of_nat (length [0; 2; 2; 5]%nat))
        / inject_Z (Z.of_nat (length (np_unique [0; 2; 2; 5]%nat))))%Q.
Proof.
  split; [reflexivity|].
  apply (balanced_weights_equalise_classes [0; 2; 2; 5]%nat 1 2). reflexivity.
Defined.

(** ** Label encoding *)

#[local] Instance string_leb_total : Total (λ a b : string, String.leb a b).
Proof.
  intros a b. destruct (String.leb_total a b) as [Hl|Hl]; [left|right];
    by apply Is_true_true.
Qed.

Lemma index_of_Some classes label i :
  index_of classes label = Some i ↔
  classes !! i = Some label ∧ ∀ j, (j < i)%nat → classes !! j ≠ Some label.
Proof.
  unfold index_of. split.
  - destruct (list_find _ classes) as [[i' c]|] eqn:Hfind; [|done].
    simpl. intros [= ->]. apply list_find_Some in Hfind as (Hi & -> & Hmin).
    split; [done|]. intros j Hj Hlab. by eapply Hmin.
  - intros [Hi Hmin].
    assert (list_find (λ c, c = label) classes = Some (i, label)) as ->; [|done].
    apply list_find_Some. split_and!; try done.
    intros j c Hc Hj ->. by eapply Hmin.
Qed.

Lemma index_of_is_Some classes label :
  is_Some (index_of classes label) ↔ label ∈ classes.
Proof.
  split.
  - intros [i Hi]. apply index_of_Some in Hi as [Hi _]. by eapply list_elem_of_lookup_2.
  - intros Hin. unfold index_of.
    destruct (list_find_elem_of (λ c, c = label) classes label Hin eq_refl) as [[i c] ->].
    by eexists.
Qed.

Lemma ascii_compare_Lt_trans a b c :
  Ascii.compare a b = Lt → Ascii.compare b c = Lt → Ascii.compare a c = Lt.
Proof.
  unfold Ascii.compare. rewrite !N.compare_lt_iff. apply N.lt_trans.
Qed.

Lemma ascii_compare_refl a : Ascii.compare a a = Eq.
Proof. unfold Ascii.compare. apply N.compare_refl. Qed.

Lemma string_compare_Lt_trans s t u :
  String.compare s t = Lt → String.compare t u = Lt → String.compare s u = Lt.
Proof.
  revert t u. induction s as [|a s IH]; intros [|b t] [|c u]; simpl; try done.
  destruct (Ascii.compare a b) eqn:Hab; try done;
    destruct (Ascii.compare b c) eqn:Hbc; try done; intros Hst Htu.
  - apply Ascii.compare_eq_iff in Hab as ->. apply Ascii.compare_eq_iff in Hbc as ->.
    rewrite ascii_compare_refl. eauto.
  - apply Ascii.compare_eq_iff in Hab as ->. by rewrite Hbc.
  - apply Ascii.compare_eq_iff in Hbc as <-. by rewrite Hab.
  - by rewrite (ascii_compare_Lt_trans a b c).
Qed.

Lemma string_leb_cases s t :
  String.leb s t = true ↔ String.compare s t = Lt ∨ s = t.
Proof.
  unfold String.leb. split.
  - destruct (String.compare s t) eqn:Hc; try done; intros _.
    + right. by apply String.compare_eq_iff.
    + by left.
  - intros [->| ->]; [done|].
    assert (String.compare t t = Eq) as ->; [|done].
    induction t as [|a t IH]; [done|]. simpl. by rewrite ascii_compare_refl.
Qed.

#[local] Instance string_leb_trans : Transitive (λ a b : string, String.leb a b).
Proof.
  intros s t u Hst%Is_true_true%string_leb_cases Htu%Is_true_true%string_leb_cases.
  apply Is_true_true, string_leb_cases.
  destruct Hst as [Hst| ->]; [|done]. destruct Htu as [Htu| <-]; [|by left].
  left. by eapply string_compare_Lt_trans.
Qed.

Lemma LabelEncoder_fit_NoDup y : NoDup (classes_ (LabelEncoder_fit y)).
Proof.
  unfold LabelEncoder_fit. simpl. rewrite merge_sort_Permutation.
  apply NoDup_remove_dups.
Qed.

Lemma LabelEncoder_fit_sorted y :
  StronglySorted (λ a b : string, String.ltb a b) (classes_ (LabelEncoder_fit y)).
Proof.
  pose proof (LabelEncoder_fit_NoDup y) as Hnd.
  assert (Hs : StronglySorted (λ a b : string, String.leb a b)
                 (classes_ (LabelEncoder_fit y)))
    by apply (StronglySorted_merge_sort _).
  induction Hs as [|a l Hs IH Hall]; [constructor|].
  apply NoDup_cons in Hnd as [Hnotin Hnd]. constructor; [by apply IH|].
  rewrite Forall_forall in Hall |- *. intros b Hb.
  specialize (Hall b Hb). apply Is_true_true, string_leb_cases in Hall.
  destruct Hall as [Hlt| ->]; [|done]. unfold String.ltb. by rewrite Hlt.
Qed.

Lemma mapM_seen classes y :
  Forall (λ label, label ∈ classes) y → is_Some (mapM (index_of classes) y).
Proof.
  intros Hall. apply mapM_is_Some. eapply Forall_impl; [exact Hall|].
  intros label. apply index_of_is_Some.
Qed.

(** The cast leaves alone a label that fits the width, as every class
    does. *)
Lemma astype_fits width label :
  (String.length label ≤ width)%nat → astype width label = label.
Proof.
  unfold astype. revert width. induction label as [|c label IH]; intros [|width] Hlen;
    simpl in *; try done; [lia|].
  f_equal. apply IH. lia.
Qed.

Lemma dtype_width_class classes label :
  label ∈ classes → (String.length label ≤ dtype_width classes)%nat.
Proof.
  intros Hin. unfold dtype_width.
  assert (String.length label ∈ String.length <$> classes)
    by (apply list_elem_of_fmap; by exists label).
  pose proof (max_list_elem_of_le _ _ H). lia.
Qed.

Lemma astype_seen classes y :
  Forall (λ label, label ∈ classes) y → astype (dtype_width classes) <$> y = y.
Proof.
  induction 1 as [|label y Hin _ IH]; [done|]. simpl.
  rewrite astype_fits by (by apply dtype_width_class). by f_equal.
Qed.

Lemma transform_Ok {St} le y codes (s : St) :
  mapM (index_of (classes_ le)) (astype (dtype_width (classes_ le)) <$> y) = Some codes →
  LabelEncoder_transform le y s = (Ok codes, s) ∧
  Forall2 (λ code label,
             classes_ le !! code = Some (astype (dtype_width (classes_ le)) label))
          codes y.
Proof.
  intros Hm. unfold LabelEncoder_transform. rewrite Hm. split; [done|].
  apply mapM_Some in Hm. rewrite Forall2_fmap_l in Hm. apply Forall2_flip.
  eapply Forall2_impl; [exact Hm|]. simpl.
  by intros label code [Hi _]%index_of_Some.
Qed.

(** On labels that are all classes, the cast changes nothing and every
    label gets the position of its class. *)
Lemma transform_seen {St} le y (s : St) :
  Forall (λ label, label ∈ classes_ le) y →
  ∃ codes,
    LabelEncoder_transform le y s = (Ok codes, s) ∧
    Forall2 (λ code label, classes_ le !! code = Some label) codes y.
Proof.
  intros Hall. destruct (mapM_seen (classes_ le) y Hall) as [codes Hm].
  pose proof (astype_seen _ _ Hall) as Hcast.
  destruct (transform_Ok le y codes s) as [Hrun Hdec]; [by rewrite Hcast|].
  exists codes. split; [done|].
  apply Forall2_same_length_lookup. split; [by eapply Forall2_length|].
  intros i code label Hcode Hlabel.
  rewrite (Forall2_lookup_lr _ _ _ _ _ _ Hdec Hcode Hlabel).
  rewrite Forall_forall in Hall.
  rewrite astype_fits; [done|]. apply dtype_width_class, Hall.
  by eapply list_elem_of_lookup_2.
Qed.

Lemma fit_codes_cover y codes :
  Forall2 (λ code label, classes_ (LabelEncoder_fit y) !! code = Some label) codes y →
  ∀ code, code ∈ codes ↔ (code < length (classes_ (LabelEncoder_fit y)))%nat.
Proof.
  intros Hdec code. split.
  - intros Hin. apply list_elem_of_lookup in Hin as [i Hi].
    destruct (Forall2_lookup_l _ _ _ _ _ Hdec Hi) as (label & _ & Hcode).
    by eapply lookup_lt_Some.
  - intros Hlt. apply lookup_lt_is_Some in Hlt as [label Hlabel].
    assert (Hin : label ∈ y).
    { apply LabelEncoder_fit_classes. by eapply list_elem_of_lookup_2. }
    apply list_elem_of_lookup in Hin as [i Hi].
    destruct (Forall2_lookup_r _ _ _ _ _ Hdec Hi) as (code' & Hcode' & Hdec').
    assert (code' = code) as <-.
    { eapply NoDup_lookup; [apply (LabelEncoder_fit_NoDup y)|done..]. }
    by eapply list_elem_of_lookup_2.
Qed.


(** A test label that extends a class name beyond the longest class is
    cut to the class and encoded; the same label is refused once a longer
    class has been seen. *)
Example transform_cuts_long_labels :
  LabelEncoder_transform (LabelEncoder_fit ["happy"; "angry"]) ["happyish"] ()
  = (Ok [1%nat], ()) ∧
  LabelEncoder_transform (LabelEncoder_fit ["happy"; "surprised"]) ["happyish"] ()
  = (Raise (ValueError "y contains previously unseen labels"), ()).
Proof. by vm_compute. Qed.

(** X23. [le.fit_transform(y)] never fails and round-trips: the classes
    are the labels of [y], strictly increasing and so without repeats;
    the code of every label decodes through [classes_] to that label;
    and the codes that occur are exactly the positions of [classes_]. *)
Theorem fit_transform_round_trip {St} (y : list string) (s : St) :
  let le := LabelEncoder_fit y in
  StronglySorted (λ a b : string, String.ltb a b) (classes_ le) ∧
  (∀ label, label ∈ classes_ le ↔ label ∈ y) ∧
  ∃ y_enc,
    LabelEncoder_transform le y s = (Ok y_enc, s) ∧
    Forall2 (λ code label, classes_ le !! code = Some label) y_enc y ∧
    ∀ code, code ∈ y_enc ↔ (code < length (classes_ le))%nat.
Proof.
  intros le. split; [apply LabelEncoder_fit_sorted|].
  split; [intros label; apply LabelEncoder_fit_classes|].
  destruct (transform_seen le y s) as (codes & Hrun & Hdec).
  { apply Forall_forall. intros label Hin. by apply LabelEncoder_fit_classes. }
  exists codes. split_and!; [done..|]. by apply fit_codes_cover.
Qed.

(** ** One-hot rows *)

Lemma argmax_from_top best_i i l :
  Forall (λ v, v <= 1)%Q l → argmax_from best_i 1 i l = best_i.
Proof.
  revert i. induction l as [|v l IH]; intros i Hall; simpl; [done|].
  apply Forall_cons in Hall as [Hv Hall].
  destruct (Qlt_le_dec 1 v) as [Hlt|_]; [|by apply IH].
  exfalso. by apply (Qlt_not_le _ _ Hlt).
Qed.

Lemma argmax_from_one_hot code best_i i k n :
  (k ≤ code < k + n)%nat →
  argmax_from best_i 0 i
    (map (λ j, if decide (j = code) then 1%Q else 0%Q) (seq k n)) = (i + (code - k))%nat.
Proof.
  revert best_i i k. induction n as [|n IH]; intros best_i i k Hk; [lia|].
  simpl. case_decide as Hkc.
  - subst k. destruct (Qlt_le_dec 0 1) as [_|Hle]; [|by exfalso].
    rewrite argmax_from_top; [lia|].
    apply Forall_forall. intros v (j & -> & _)%list_elem_of_fmap. by case_decide.
  - destruct (Qlt_le_dec 0 0) as [Hlt|_]; [by exfalso|].
    rewrite IH by lia. lia.
Qed.

Lemma argmax_one_hot num_classes code :
  (code < num_classes)%nat → argmax_rows [one_hot num_classes code] = [code].
Proof.
  intros Hlt. destruct num_classes as [|m]; [lia|].
  unfold argmax_rows, one_hot. simpl. f_equal. case_decide as H0.
  - subst code. rewrite argmax_from_top; [done|].
    apply Forall_forall. intros v (j & -> & _)%list_elem_of_fmap. by case_decide.
  - rewrite argmax_from_one_hot by lia. lia.
Qed.

Lemma argmax_rows_cons row y :
  argmax_rows (row :: y) = argmax_rows [row] ++ argmax_rows y.
Proof. done. Qed.

Lemma one_hot_lookup num_classes code j :
  (j < num_classes)%nat →
  one_hot num_classes code !! j = Some (if decide (j = code) then 1%Q else 0%Q).
Proof.
  intros Hj. unfold one_hot. rewrite list_lookup_fmap, lookup_seq_lt by done. done.
Qed.

Lemma argmax_rows_one_hot num_classes y_enc :
  Forall (λ code, code < num_classes)%nat y_enc →
  argmax_rows (map (one_hot num_classes) y_enc) = y_enc.
Proof.
  induction 1 as [|code l Hcode Hall IH]; [done|].
  rewrite map_cons, argmax_rows_cons, argmax_one_hot, IH; done.
Qed.

Lemma max_list_bound y_enc : Forall (λ code, code < S (max_list y_enc))%nat y_enc.
Proof.
  apply Forall_forall. intros code Hin. apply max_list_elem_of_le in Hin. lia.
Qed.

Lemma to_categorical_nonempty y_enc :
  y_enc ≠ [] → to_categorical y_enc = Ok (map (one_hot (S (max_list y_enc))) y_enc).
Proof. by destruct y_enc. Qed.

Lemma max_list_covering l k :
  (0 < k)%nat → (∀ c, c ∈ l ↔ (c < k)%nat) → S (max_list l) = k.
Proof.
  intros Hk Hl.
  assert (Hne : l ≠ []).
  { intros ->. assert (Hin : (k - 1)%nat ∈ @nil nat) by (apply Hl; lia).
    by apply elem_of_nil in Hin. }
  pose proof (max_list_elem_of l Hne) as Hmax. apply Hl in Hmax.
  assert (Hin : (k - 1)%nat ∈ l) by (apply Hl; lia).
  apply max_list_elem_of_le in Hin. lia.
Qed.

(** X24. One-hot targets round-trip through [argmax]: on codes that are
    not empty [to_categorical] returns one row per code, of width
    [max + 1], holding 1 at the code and 0 elsewhere, and
    [np.argmax(., axis=1)] of the rows gives the codes back. *)
Theorem to_categorical_round_trip (y_enc : list nat) :
  y_enc ≠ [] →
  ∃ y_cat,
    to_categorical y_enc = Ok y_cat ∧
    argmax_rows y_cat = y_enc ∧
    Forall2 (λ row code,
      length row = S (max_list y_enc) ∧
      ∀ j, (j < S (max_list y_enc))%nat →
        row !! j = Some (if decide (j = code) then 1%Q else 0%Q)) y_cat y_enc.
Proof.
  intros Hne. eexists. split_and!.
  - by apply to_categorical_nonempty.
  - apply argmax_rows_one_hot, max_list_bound.
  - apply Forall2_fmap_l, Forall_Forall2_diag, Forall_forall. intros code _. split.
    + unfold one_hot. by rewrite length_map, length_seq.
    + intros j Hj. by apply one_hot_lookup.
Qed.

(** X25. The targets [load_data_dl] builds from the labels it collected:
    with no label the encoding raises a [ValueError]; otherwise every
    target row is as wide as the encoder has classes, the width the
    network's output layer is given, and the class [argmax] picks in a row
    decodes through [classes_] to the label of that example. *)
Theorem one_hot_targets_decode {St} (y : list string) (s : St) :
  (y = [] ∧ ∃ msg, encode_labels y s = (Raise (ValueError msg), s)) ∨
  (y ≠ [] ∧ ∃ le y_cat,
     encode_labels y s = (Ok (le, y_cat), s) ∧
     le = LabelEncoder_fit y ∧
     Forall (λ row, length row = length (classes_ le)) y_cat ∧
     Forall2 (λ code label, classes_ le !! code = Some label) (argmax_rows y_cat) y).
Proof.
  destruct (decide (y = [])) as [->|Hne].
  { left. split; [done|]. by eexists. }
  right. split; [done|].
  destruct (transform_seen (LabelEncoder_fit y) y s) as (codes & Hrun & Hdec).
  { apply Forall_forall. intros label Hin. by apply LabelEncoder_fit_classes. }
  assert (Hcodes : codes ≠ []).
  { intros ->. apply Forall2_nil_inv_l in Hdec. done. }
  pose proof (to_categorical_nonempty codes Hcodes) as Hcat.
  pose proof (argmax_rows_one_hot _ codes (max_list_bound codes)) as Harg.
  assert (Hwidth : S (max_list codes) = length (classes_ (LabelEncoder_fit y))).
  { apply max_list_covering.
    - destruct y as [|label y]; [done|].
      assert (Hin : label ∈ classes_ (LabelEncoder_fit (label :: y))).
      { apply LabelEncoder_fit_classes. left. }
      destruct (classes_ (LabelEncoder_fit (label :: y))); [by apply elem_of_nil in Hin|].
      simpl. lia.
    - by apply fit_codes_cover. }
  do 2 eexists. split_and!; [|reflexivity|..].
  - unfold encode_labels, bind. rewrite Hrun, Hcat. reflexivity.
  - rewrite <- Hwidth. apply Forall_forall.
    intros row (code & -> & _)%list_elem_of_fmap.
    unfold one_hot. by rewrite length_map, length_seq.
  - by rewrite Harg.
Qed.

Lemma to_categorical_round_trip_witness :
  ∃ y_cat,
    to_categorical [0; 2; 1]%nat = Ok y_cat ∧
    argmax_rows y_cat = [0; 2; 1]%nat ∧
    Forall2 (λ row code,
      length row = S (max_list [0; 2; 1]%nat) ∧
      ∀ j, (j < S (max_list [0; 2; 1]%nat))%nat →
        row !! j = Some (if decide (j = code) then 1%Q else 0%Q)) y_cat [0; 2; 1]%nat.
Proof. apply (to_categorical_round_trip [0; 2; 1]%nat). done. Defined.

(** ** Model Builder: the time axis *)

Lemma half_spec n : (2 * (n / 2) ≤ n < 2 * (n / 2) + 2)%nat.
Proof.
  pose proof (Nat.div_mod_eq n 2). pose proof (Nat.mod_upper_bound n 2). lia.
Qed.

Lemma conv_pool_stage filters rate rest steps channels :
  Sequential (Conv1D filters 5 :: BatchNormalization :: MaxPooling1D 2
              :: Dropout rate :: rest) [steps; channels] =
  if decide (6 ≤ steps)%nat
  then Sequential rest [((steps - 4) / 2)%nat; filters]
  else Raise (ValueError "Negative dimension size").
Proof.
  cbn [Sequential compute_output_shape].
  destruct (decide (5 ≤ steps)%nat) as [H5|H5]; [|by rewrite decide_False by lia].
  cbn [Sequential compute_output_shape].
  destruct (decide (2 ≤ steps - 5 + 1)%nat) as [H2|H2]; [|by rewrite decide_False by lia].
  rewrite decide_True by lia. do 3 f_equal.
  replace (steps - 5 + 1 - 2)%nat with (steps - 4 - 2)%nat by lia.
  pose proof (half_spec (steps - 4)). pose proof (half_spec (steps - 4 - 2)). lia.
Qed.

(** X26. The network of [build_cnn_lstm] needs 16 frames: each of its two
    convolution stages takes 4 steps off the time axis and the pooling
    after it halves what is left, so on an input of [max_len] frames the
    recurrent layer reads [((max_len - 4) / 2 - 4) / 2] steps of 128
    channels and the model ends in [num_classes] outputs; below 16 frames
    a window no longer fits and building the model raises. *)
Theorem build_cnn_lstm_needs_sixteen_frames (max_len n_mfcc num_classes : nat) :
  if decide (16 ≤ max_len)%nat
  then build_cnn_lstm [max_len; n_mfcc] num_classes = Ok [num_classes] ∧
       Sequential (take 8 (cnn_lstm_layers num_classes)) [max_len; n_mfcc]
       = Ok [(((max_len - 4) / 2 - 4) / 2)%nat; 128%nat]
  else ∃ msg, build_cnn_lstm [max_len; n_mfcc] num_classes = Raise (ValueError msg).
Proof.
  unfold build_cnn_lstm, cnn_lstm_layers. cbn [take].
  rewrite !conv_pool_stage.
  pose proof (half_spec (max_len - 4)).
  destruct (decide (16 ≤ max_len)%nat) as [Hge|Hlt].
  - rewrite !(decide_True (P := (6 ≤ max_len)%nat)) by lia.
    rewrite !(decide_True (P := (6 ≤ (max_len - 4) / 2)%nat)) by lia. done.
  - destruct (decide (6 ≤ max_len)%nat); [|by eexists].
    rewrite !(decide_False (P := (6 ≤ (max_len - 4) / 2)%nat)) by lia. by eexists.
Qed.
